(** * financefetcher: a shallow embedding of the fetch-orchestration core

    The Go packages [fetcher], [ratelimit], [alphavantage], [etherscan],
    [rentcast] and [coordinator] are embedded as Rocq modules of the same
    names.  Go's [int] is modelled by [Z], [string] by [string] (a sequence
    of bytes), [float64] by the kernel's binary64 [float], a [map] by
    stdpp's [gmap], and the pair [(T, error)] a Go function returns by
    [T * option error], where [None] is Go's [nil]. *)

From Stdlib Require Import ZArith String Ascii List Floats.
From stdpp Require Import base option list gmap strings pretty.

Open Scope string_scope.
Open Scope Z_scope.

Set Warnings "-register-all".

(* ===================================================================== *)
(** * The Go values the program works on                                  *)
(* ===================================================================== *)

(** [float64] is IEEE 754 binary64, as the kernel's primitive floats. *)
Definition float64 : Set := PrimFloat.float.

(** [fmt.Sprintf("%d", n)] on an [int]. *)
Definition fmt_d (n : Z) : string := pretty n.

(** Go's [error] values, as far as this program builds them:
    - [errorString]: [errors.New], or [fmt.Errorf] without the verb [%w];
      also the errors of the transport and of the context;
    - [wrapError]: [fmt.Errorf] with one [%w]; it keeps the formatted
      message and the wrapped error;
    - [ptrFetchError]: a [*fetcher.FetchError], with the five fields of the
      struct. *)
Inductive error : Type :=
| errorString (s : string)
| wrapError (msg : string) (err : error)
| ptrFetchError (Type_ : string) (Retryable : bool) (StatusCode : Z)
                (Message : string) (Cause : option error).

Module time.
(** [time.Duration] counts nanoseconds. *)
Definition Duration : Set := Z.
Definition Nanosecond : Duration := 1.
Definition Millisecond : Duration := 1000000.
Definition Second : Duration := 1000000000.
End time.

Module context.
(** A [context.Context] as a callee observes it: [Err()] is [nil] while
    the context is live, and [Canceled] or [DeadlineExceeded] after. *)
Record Context := mkContext { Err : option error }.
Definition Background : Context := {| Err := None |}.
Definition Canceled : error := errorString "context canceled".
Definition DeadlineExceeded : error := errorString "context deadline exceeded".
End context.

Module strings.
(** [utf8.RuneSelf]: bytes below it are the ASCII characters. *)
Definition isASCIIByte (c : ascii) : bool := (nat_of_ascii c <? 128)%nat.

Fixpoint isASCII (s : string) : bool :=
  match s with
  | EmptyString => true
  | String c s' => isASCIIByte c && isASCII s'
  end.

Definition isUpperByte (c : ascii) : bool :=
  ((65 <=? nat_of_ascii c) && (nat_of_ascii c <=? 90))%nat.

(** [c += 'a' - 'A'] on the bytes ['A'..'Z']. *)
Definition lowerByte (c : ascii) : ascii :=
  if isUpperByte c then ascii_of_nat (nat_of_ascii c + 32) else c.

Fixpoint mapBytes (f : ascii -> ascii) (s : string) : string :=
  match s with
  | EmptyString => EmptyString
  | String c s' => String (f c) (mapBytes f s')
  end.

(** [strings.ToLower]: on a string of ASCII bytes it lowers the bytes
    ['A'..'Z']; on any other string it maps [unicode.ToLower] over the
    runes, which is the argument [unicodeLower] here (the Unicode case
    tables are not part of the program). *)
Definition ToLower (unicodeLower : string -> string) (s : string) : string :=
  if isASCII s then mapBytes lowerByte s else unicodeLower s.

(** The scan of [strings.Replace(s, old, new, -1)] for a non-empty [old]:
    matches are taken from left to right and do not overlap; [skip] counts
    the bytes of the current match that are still to be dropped. *)
Fixpoint replaceFrom (old new : string) (skip : nat) (s : string) : string :=
  match s with
  | EmptyString => EmptyString
  | String c s' =>
      match skip with
      | S k => replaceFrom old new k s'
      | O =>
          if String.prefix old s
          then new +:+ replaceFrom old new (String.length old - 1) s'
          else String c (replaceFrom old new 0 s')
      end
  end.

(** With an empty [old], [new] goes before every character and at the end
    (Go counts runes there, so this case is exact on ASCII strings). *)
Fixpoint insertAround (new : string) (s : string) : string :=
  match s with
  | EmptyString => new
  | String c s' => new +:+ String c (insertAround new s')
  end.

(** [strings.ReplaceAll(s, old, new)] *)
Definition ReplaceAll (s old new : string) : string :=
  match old with
  | EmptyString => insertAround new s
  | String _ _ => replaceFrom old new 0 s
  end.
End strings.

Module resty.
(** The part of [*resty.Request] and [*resty.Response] the program reads. *)
Record Request := mkRequest { URL : string; Attempt : Z }.
Record Response := mkResponse { StatusCode : Z; Request_ : Request }.

(** [func (r *Response) IsSuccess() bool]: a status in 200..299. *)
Definition IsSuccess (r : Response) : bool :=
  (199 <? StatusCode r) && (StatusCode r <? 300).

(** One [slog.Debug] call: the message and its attributes. *)
Record LogRecord := mkLogRecord { msg : string; attrs : list (string * string) }.

Definition RetryConditionFunc : Type := Response -> option error -> bool.
Definition RetryHookFunc : Type := Response -> option error -> LogRecord.

(** The configuration a [*resty.Client] carries. *)
Record Client := mkClient {
  BaseURL : string;
  Header : gmap string string;
  RetryCount : Z;
  RetryWaitTime : time.Duration;
  RetryMaxWaitTime : time.Duration;
  RetryConditions : list RetryConditionFunc;
  RetryHooks : list RetryHookFunc
}.

Definition SetBaseURL (url : string) (c : Client) : Client :=
  mkClient url (Header c) (RetryCount c) (RetryWaitTime c) (RetryMaxWaitTime c)
           (RetryConditions c) (RetryHooks c).
Definition SetHeader (k v : string) (c : Client) : Client :=
  mkClient (BaseURL c) (<[k := v]> (Header c)) (RetryCount c) (RetryWaitTime c)
           (RetryMaxWaitTime c) (RetryConditions c) (RetryHooks c).
Definition SetRetryCount (n : Z) (c : Client) : Client :=
  mkClient (BaseURL c) (Header c) n (RetryWaitTime c) (RetryMaxWaitTime c)
           (RetryConditions c) (RetryHooks c).
Definition SetRetryWaitTime (d : time.Duration) (c : Client) : Client :=
  mkClient (BaseURL c) (Header c) (RetryCount c) d (RetryMaxWaitTime c)
           (RetryConditions c) (RetryHooks c).
Definition SetRetryMaxWaitTime (d : time.Duration) (c : Client) : Client :=
  mkClient (BaseURL c) (Header c) (RetryCount c) (RetryWaitTime c) d
           (RetryConditions c) (RetryHooks c).
Definition AddRetryConditions (f : RetryConditionFunc) (c : Client) : Client :=
  mkClient (BaseURL c) (Header c) (RetryCount c) (RetryWaitTime c)
           (RetryMaxWaitTime c) (RetryConditions c ++ [f]) (RetryHooks c).
Definition AddRetryHooks (f : RetryHookFunc) (c : Client) : Client :=
  mkClient (BaseURL c) (Header c) (RetryCount c) (RetryWaitTime c)
           (RetryMaxWaitTime c) (RetryConditions c) (RetryHooks c ++ [f]).

(** What [client.R(). ... .SetResult(&result).Get(url)] hands back once the
    client's retries are over: either [err != nil], or a response together
    with what the library decoded of its body into [result] ([None] when it
    decoded nothing and [result] keeps its zero value). *)
Inductive Reply (T : Type) : Type :=
| Failed (err : error)
| Responded (resp : Response) (decoded : option T).
Arguments Failed {T} err.
Arguments Responded {T} resp decoded.
End resty.

(** The libraries the program is linked with, where their behaviour is not
    fixed by the program: a theorem that holds for every instance holds for
    the real ones. *)
Class Libraries := {
  (** [resty.New()]: the client before the program configures it. *)
  resty_New : resty.Client;
  (** [strconv.ParseFloat(s, 64)] *)
  strconv_ParseFloat : string -> float64 * option error;
  (** [fmt.Sprintf("%.2f", v)] *)
  fmt_2f : float64 -> string;
  (** [unicode.ToLower] mapped over the runes of a string. *)
  unicode_ToLower : string -> string;
  (** [*rate.Limiter] of golang.org/x/time/rate, with its state. *)
  rate_Limiter : Type;
  (** [rate.NewLimiter(r, b)] *)
  rate_NewLimiter : float64 -> Z -> rate_Limiter;
  (** [lim.Wait(ctx)]: the limiter after the call, the time the caller was
      blocked, and the error returned. *)
  rate_Wait : rate_Limiter -> context.Context ->
              rate_Limiter * time.Duration * option error;
  (** [lim.Allow()]: the limiter after the call and the answer. *)
  rate_Allow : rate_Limiter -> rate_Limiter * bool
}.

(* ===================================================================== *)
(** * Package fetcher: error taxonomy, classifier and retry policy        *)
(* ===================================================================== *)

Module fetcher.

(** [type ErrorType string] and its seven constants. *)
Definition ErrorType := string.

Definition ErrorTypeNetwork : ErrorType := "network".
Definition ErrorTypeRateLimit : ErrorType := "rate_limit".
Definition ErrorTypeServer : ErrorType := "server".
Definition ErrorTypeClient : ErrorType := "client".
Definition ErrorTypeValidation : ErrorType := "validation".
Definition ErrorTypeTimeout : ErrorType := "timeout".
Definition ErrorTypeUnknown : ErrorType := "unknown".

(** The taxonomy of the error classes. *)
Definition taxonomy : list ErrorType :=
  [ErrorTypeNetwork; ErrorTypeRateLimit; ErrorTypeServer; ErrorTypeClient;
   ErrorTypeValidation; ErrorTypeTimeout; ErrorTypeUnknown].

(** [struct FetchError], the payload of [ptrFetchError]. *)
Record FetchError := mkFetchError {
  Type_ : ErrorType;
  Retryable : bool;
  StatusCode : Z;
  Message : string;
  Cause : option error
}.

Definition toError (e : FetchError) : error :=
  ptrFetchError (Type_ e) (Retryable e) (StatusCode e) (Message e) (Cause e).

(** [func (e *FetchError) Error() string] *)
Definition FetchError_Error (e : FetchError) : string :=
  if 0 <? StatusCode e
  then Type_ e +:+ " error (status " +:+ fmt_d (StatusCode e) +:+ "): " +:+ Message e
  else Type_ e +:+ " error: " +:+ Message e.

(** [func (e *FetchError) Unwrap() error] *)
Definition FetchError_Unwrap (e : FetchError) : option error := Cause e.

(** The method [Error()] of the interface [error]. *)
Definition Error (err : error) : string :=
  match err with
  | errorString s => s
  | wrapError msg _ => msg
  | ptrFetchError t r c m k => FetchError_Error (mkFetchError t r c m k)
  end.

(** The method [Unwrap()], where the dynamic type has one. *)
Definition Unwrap (err : error) : option error :=
  match err with
  | errorString _ => None
  | wrapError _ e => Some e
  | ptrFetchError _ _ _ _ k => k
  end.

(** [fmt.Errorf(prefix + "%w", err)]: the message is the prefix followed by
    [err.Error()], and the result unwraps to [err]. *)
Definition fmt_Errorf_w (prefix : string) (err : error) : error :=
  wrapError (prefix +:+ Error err) err.

(** [errors.As(err, &target)] with [target] a [*FetchError]: the first error
    of the [Unwrap] chain whose dynamic type is [*FetchError]. *)
Fixpoint errors_As_FetchError (err : error) : option FetchError :=
  match err with
  | errorString _ => None
  | wrapError _ e => errors_As_FetchError e
  | ptrFetchError t r c m k => Some (mkFetchError t r c m k)
  end.

(** The error is, or wraps, a [*FetchError] whose type is in the taxonomy. *)
Definition tagged (err : error) : Prop :=
  exists fe, errors_As_FetchError err = Some fe /\ In (Type_ fe) taxonomy.

Definition NewNetworkError (cause : error) : FetchError :=
  {| Type_ := ErrorTypeNetwork; Retryable := true; StatusCode := 0;
     Message := "network request failed"; Cause := Some cause |}.

Definition NewRateLimitError (statusCode : Z) : FetchError :=
  {| Type_ := ErrorTypeRateLimit; Retryable := true; StatusCode := statusCode;
     Message := "rate limit exceeded"; Cause := None |}.

Definition NewServerError (statusCode : Z) : FetchError :=
  {| Type_ := ErrorTypeServer; Retryable := true; StatusCode := statusCode;
     Message := "server returned an error"; Cause := None |}.

Definition NewClientError (statusCode : Z) (message : string) : FetchError :=
  {| Type_ := ErrorTypeClient; Retryable := false; StatusCode := statusCode;
     Message := message; Cause := None |}.

Definition NewValidationError (message : string) : FetchError :=
  {| Type_ := ErrorTypeValidation; Retryable := false; StatusCode := 0;
     Message := message; Cause := None |}.

Definition NewTimeoutError (cause : error) : FetchError :=
  {| Type_ := ErrorTypeTimeout; Retryable := true; StatusCode := 0;
     Message := "request timed out"; Cause := Some cause |}.

(** [func ClassifyHTTPError(statusCode int) *FetchError]: the [switch] tries
    its cases in order. *)
Definition ClassifyHTTPError (statusCode : Z) : FetchError :=
  if statusCode =? 429 then NewRateLimitError statusCode
  else if 500 <=? statusCode then NewServerError statusCode
  else if 400 <=? statusCode then
    NewClientError statusCode ("client error: HTTP " +:+ fmt_d statusCode)
  else {| Type_ := ErrorTypeUnknown; Retryable := false; StatusCode := statusCode;
          Message := "unexpected status code: " +:+ fmt_d statusCode;
          Cause := None |}.

(** Default retry configuration. *)
Definition defaultRetryCount : Z := 3.
Definition defaultRetryWaitTime : time.Duration := 1 * time.Second.
Definition defaultRetryMaxWaitTime : time.Duration := 10 * time.Second.

(** [func retryCondition(r *resty.Response, err error) bool] *)
Definition retryCondition (r : resty.Response) (err : option error) : bool :=
  match err with
  | Some _ => true
  | None =>
      if 500 <=? resty.StatusCode r then true
      else if resty.StatusCode r =? 429 then true
      else if resty.StatusCode r =? 408 then true
      else if (400 <=? resty.StatusCode r) && (resty.StatusCode r <? 500) then false
      else false
  end.

(** [func retryHook(r *resty.Response, err error)]: the record it logs. *)
Definition retryHook (r : resty.Response) (err : option error) : resty.LogRecord :=
  match err with
  | Some e =>
      resty.mkLogRecord "retrying request due to error"
        [("url", resty.URL (resty.Request_ r));
         ("attempt", fmt_d (resty.Attempt (resty.Request_ r)));
         ("error", Error e)]
  | None =>
      resty.mkLogRecord "retrying request due to status code"
        [("url", resty.URL (resty.Request_ r));
         ("attempt", fmt_d (resty.Attempt (resty.Request_ r)));
         ("status_code", fmt_d (resty.StatusCode r))]
  end.

(** [func NewHTTPClient(baseURL string) *resty.Client] *)
Definition NewHTTPClient `{Libraries} (baseURL : string) : resty.Client :=
  resty.AddRetryHooks retryHook
    (resty.AddRetryConditions retryCondition
      (resty.SetRetryMaxWaitTime defaultRetryMaxWaitTime
        (resty.SetRetryWaitTime defaultRetryWaitTime
          (resty.SetRetryCount defaultRetryCount
            (resty.SetHeader "Accept" "application/json"
              (resty.SetBaseURL baseURL resty_New)))))).

(** [type Result struct] *)
Record Result := mkResult {
  Key : string;
  Value : float64;
  Error_ : option error
}.

(** [type Fetcher interface]: a value of the interface is given by what its
    two methods return.  [Fetch] is a function, so a call to it returns: a
    unit whose [Fetch] blocks for ever or panics is outside this type. *)
Record Fetcher := mkFetcher {
  Fetch : context.Context -> float64 * option error;
  Key_ : string
}.

End fetcher.

(* ===================================================================== *)
(** * Package ratelimit: one token bucket per data source                 *)
(* ===================================================================== *)

Module ratelimit.

(** [type API string] *)
Definition API : Set := string.

Definition APIEtherscan : API := "etherscan".
Definition APIAlphaVantage : API := "alphavantage".
Definition APIRentcast : API := "rentcast".

(** [rate.Inf], which is [math.MaxFloat64]. *)
Definition rate_Inf : float64 := 0x1.fffffffffffffp+1023%float.

(** What the process reads of its surroundings: [os.Getenv("GO_TESTING")]
    and [os.Args]. *)
Record Environ := mkEnviron { GO_TESTING : string; Args : list string }.

(** [func isTestMode() bool]: some argument is longer than six bytes and
    starts with ["-test."]. *)
Definition isTestMode (args : list string) : bool :=
  existsb (fun arg => (6 <? Z.of_nat (String.length arg))
                      && String.eqb (String.substring 0 6 arg) "-test.") args.

Section WithLibraries.
Context `{Libraries}.

(** [type Limiter struct]: the map from a source to its [*rate.Limiter].
    The mutex [mu] only guards the map against concurrent access and has no
    counterpart in a sequential model. *)
Record Limiter := mkLimiter { limiters : gmap API rate_Limiter }.

(** [func (l *Limiter) initLimiters()] *)
Definition initLimiters (env : Environ) (l : Limiter) : Limiter :=
  if String.eqb (GO_TESTING env) "1" || isTestMode (Args env) then
    mkLimiter
      (<[APIRentcast := rate_NewLimiter rate_Inf 1]>
        (<[APIAlphaVantage := rate_NewLimiter rate_Inf 1]>
          (<[APIEtherscan := rate_NewLimiter rate_Inf 1]> (limiters l))))
  else
    mkLimiter
      (<[APIRentcast := rate_NewLimiter 10%float 1]>
        (<[APIAlphaVantage := rate_NewLimiter (1 / 12)%float 1]>
          (<[APIEtherscan := rate_NewLimiter 4%float 1]> (limiters l)))).

(** The package variables [instance] and [once]: [instance] is [nil] until
    [once.Do] has run. *)
Record Globals := mkGlobals { environ : Environ; instance : option Limiter }.

(** [func GetLimiter() *Limiter]: the singleton, created on first use. *)
Definition GetLimiter (g : Globals) : Limiter * Globals :=
  match instance g with
  | Some l => (l, g)
  | None =>
      let l := initLimiters (environ g) (mkLimiter ∅) in
      (l, mkGlobals (environ g) (Some l))
  end.

(** [func (l *Limiter) Wait(ctx context.Context, api API) error], with the
    limiter after the call and the time the caller was blocked. *)
Definition Wait (l : Limiter) (ctx : context.Context) (api : API)
  : Limiter * time.Duration * option error :=
  match limiters l !! api with
  | None => (l, 0, None)
  | Some limiter =>
      let '(limiter', blocked, err) := rate_Wait limiter ctx in
      (mkLimiter (<[api := limiter']> (limiters l)), blocked, err)
  end.

(** [func (l *Limiter) Allow(api API) bool], with the limiter after the
    call. *)
Definition Allow (l : Limiter) (api : API) : Limiter * bool :=
  match limiters l !! api with
  | None => (l, true)
  | Some limiter =>
      let '(limiter', ok) := rate_Allow limiter in
      (mkLimiter (<[api := limiter']> (limiters l)), ok)
  end.

(** The two statements every rate-limited adapter starts with:
    [limiter := ratelimit.GetLimiter(); err := limiter.Wait(ctx, api)].
    The limiter is shared through the package variable, so the state after
    the wait is stored back. *)
Definition getAndWait (g : Globals) (ctx : context.Context) (api : API)
  : Globals * option error :=
  let '(l, g1) := GetLimiter g in
  let '(l', _, err) := Wait l ctx api in
  (mkGlobals (environ g1) (Some l'), err).

End WithLibraries.
End ratelimit.

(* ===================================================================== *)
(** * Package alphavantage: the stock-quote adapter                       *)
(* ===================================================================== *)

Module alphavantage.

(** The anonymous struct under the key ["Global Quote"]. *)
Record GlobalQuote := mkGlobalQuote {
  Symbol : string;
  Open : string;
  High : string;
  Low : string;
  Price : string;
  Volume : string;
  LatestTradingDay : string;
  PreviousClose : string;
  Change : string;
  ChangePercent : string
}.

(** [type GlobalQuoteResponse struct] *)
Record GlobalQuoteResponse := mkGlobalQuoteResponse { Global_Quote : GlobalQuote }.

(** The zero value [var result GlobalQuoteResponse] starts with. *)
Definition zeroResponse : GlobalQuoteResponse :=
  mkGlobalQuoteResponse (mkGlobalQuote "" "" "" "" "" "" "" "" "" "").

(** How [encoding/json] fills the struct from a body that is an object of
    objects of strings: each field takes the string under the key of its
    [json] tag, and keeps its zero value when the key is absent. *)
Definition decode (body : gmap string (gmap string string)) : GlobalQuoteResponse :=
  let q := default ∅ (body !! "Global Quote") in
  let field k := default "" (q !! k) in
  mkGlobalQuoteResponse
    (mkGlobalQuote (field "01. symbol") (field "02. open") (field "03. high")
       (field "04. low") (field "05. price") (field "06. volume")
       (field "07. latest trading day") (field "08. previous close")
       (field "09. change") (field "10. change percent")).

(** [type StockFetcher struct] *)
Record StockFetcher := mkStockFetcher {
  apiKey : string;
  ticker : string;
  client : resty.Client
}.

Section WithLibraries.
Context `{Libraries}.

(** [func NewStockFetcher(apiKey, ticker, baseURL string) *StockFetcher] *)
Definition NewStockFetcher (apiKey ticker baseURL : string) : StockFetcher :=
  mkStockFetcher apiKey ticker (fetcher.NewHTTPClient baseURL).

(** [func (f *StockFetcher) Fetch(ctx context.Context) (float64, error)].

    [g] is the state of the rate limiter's package variables and [http] is
    what the GET request of this call comes back with; the function returns
    the Go results and the state after the call. *)
Definition Fetch (f : StockFetcher) (ctx : context.Context)
    (g : ratelimit.Globals) (http : resty.Reply GlobalQuoteResponse)
  : (float64 * option error) * ratelimit.Globals :=
  let '(g', werr) := ratelimit.getAndWait g ctx ratelimit.APIAlphaVantage in
  match werr with
  | Some err => ((0%float, Some (fetcher.toError (fetcher.NewTimeoutError err))), g')
  | None =>
      match http with
      | resty.Failed err =>
          ((0%float, Some (fetcher.toError (fetcher.NewNetworkError err))), g')
      | resty.Responded resp decoded =>
          let result := default zeroResponse decoded in
          if negb (resty.IsSuccess resp) then
            let fetchErr := fetcher.ClassifyHTTPError (resty.StatusCode resp) in
            ((0%float,
              Some (fetcher.fmt_Errorf_w
                      ("failed to fetch stock price for " +:+ ticker f +:+ ": ")
                      (fetcher.toError fetchErr))), g')
          else if String.eqb (Price (Global_Quote result)) "" then
            ((0%float,
              Some (fetcher.toError (fetcher.NewValidationError
                      ("price not found in response for " +:+ ticker f)))), g')
          else
            match strconv_ParseFloat (Price (Global_Quote result)) with
            | (_, Some err) =>
                ((0%float,
                  Some (fetcher.toError (fetcher.NewValidationError
                          ("failed to parse stock price: " +:+ fetcher.Error err)))), g')
            | (price, None) => ((price, None), g')
            end
      end
  end.

(** [func (f *StockFetcher) Key() string] *)
Definition Key (f : StockFetcher) : string :=
  "fetcher:alphavantage:" +:+ ticker f.

End WithLibraries.
End alphavantage.

(* ===================================================================== *)
(** * Package rentcast: the property-valuation adapter                    *)
(* ===================================================================== *)

Module rentcast.

(** [type SubjectProperty struct]; a pointer field is an [option]. *)
Record SubjectProperty := mkSubjectProperty {
  sp_ID : string;
  sp_FormattedAddress : string;
  sp_AddressLine1 : string;
  sp_AddressLine2 : option string;
  sp_City : string;
  sp_State : string;
  sp_StateFips : string;
  sp_ZipCode : string;
  sp_County : string;
  sp_CountyFips : string;
  sp_Latitude : float64;
  sp_Longitude : float64;
  sp_PropertyType : string;
  sp_Bedrooms : Z;
  sp_Bathrooms : float64;
  sp_SquareFootage : Z;
  sp_LotSize : Z;
  sp_YearBuilt : Z;
  sp_LastSaleDate : option string;
  sp_LastSalePrice : option float64
}.

(** [type Comparable struct] *)
Record Comparable := mkComparable {
  cp_ID : string;
  cp_FormattedAddress : string;
  cp_AddressLine1 : string;
  cp_AddressLine2 : option string;
  cp_City : string;
  cp_State : string;
  cp_StateFips : string;
  cp_ZipCode : string;
  cp_County : string;
  cp_CountyFips : string;
  cp_Latitude : float64;
  cp_Longitude : float64;
  cp_PropertyType : string;
  cp_Bedrooms : Z;
  cp_Bathrooms : float64;
  cp_SquareFootage : Z;
  cp_LotSize : Z;
  cp_YearBuilt : Z;
  cp_Status : string;
  cp_Price : float64;
  cp_ListingType : string;
  cp_ListedDate : string;
  cp_RemovedDate : option string;
  cp_LastSeenDate : string;
  cp_DaysOnMarket : Z;
  cp_Distance : float64;
  cp_DaysOld : Z;
  cp_Correlation : float64
}.

(** [type PropertyValueResponse struct] *)
Record PropertyValueResponse := mkPropertyValueResponse {
  Price : float64;
  PriceRangeLow : float64;
  PriceRangeHigh : float64;
  Subject_Property : SubjectProperty;
  Comparables : list Comparable
}.

Definition zeroSubjectProperty : SubjectProperty :=
  mkSubjectProperty "" "" "" None "" "" "" "" "" "" 0%float 0%float "" 0
    0%float 0 0 0 None None.

(** The zero value [var result PropertyValueResponse] starts with. *)
Definition zeroResponse : PropertyValueResponse :=
  mkPropertyValueResponse 0%float 0%float 0%float zeroSubjectProperty [].

(** The top level of a response body: each key may be absent. *)
Record Body := mkBody {
  json_price : option float64;
  json_priceRangeLow : option float64;
  json_priceRangeHigh : option float64;
  json_subjectProperty : option SubjectProperty;
  json_comparables : option (list Comparable)
}.

(** How [encoding/json] fills the struct: a field whose key is absent keeps
    its zero value. *)
Definition decode (b : Body) : PropertyValueResponse :=
  mkPropertyValueResponse
    (default 0%float (json_price b))
    (default 0%float (json_priceRangeLow b))
    (default 0%float (json_priceRangeHigh b))
    (default zeroSubjectProperty (json_subjectProperty b))
    (default [] (json_comparables b)).

(** [type PropertyParams struct] *)
Record PropertyParams := mkPropertyParams {
  Address : string;
  PropertyType : string;
  Bedrooms : Z;
  Bathrooms : float64;
  SquareFootage : Z
}.

(** [type PropertyFetcher struct] *)
Record PropertyFetcher := mkPropertyFetcher {
  apiKey : string;
  params : PropertyParams;
  client : resty.Client;
  lastResponse : option PropertyValueResponse
}.

Section WithLibraries.
Context `{Libraries}.

(** [func NewPropertyFetcher(apiKey string, params PropertyParams,
    baseURL string) *PropertyFetcher] *)
Definition NewPropertyFetcher (apiKey : string) (params : PropertyParams)
    (baseURL : string) : PropertyFetcher :=
  mkPropertyFetcher apiKey params
    (resty.SetHeader "X-Api-Key" apiKey (fetcher.NewHTTPClient baseURL)) None.

(** [func (f *PropertyFetcher) Fetch(ctx context.Context) (float64, error)],
    the version that goes through the rate limiter and the error taxonomy.
    Besides the Go results it returns the fetcher after the call (the
    method stores the response into [f.lastResponse]) and the state of the
    rate limiter. *)
Definition Fetch (f : PropertyFetcher) (ctx : context.Context)
    (g : ratelimit.Globals) (http : resty.Reply PropertyValueResponse)
  : (float64 * option error) * PropertyFetcher * ratelimit.Globals :=
  let '(g', werr) := ratelimit.getAndWait g ctx ratelimit.APIRentcast in
  match werr with
  | Some err =>
      ((0%float, Some (fetcher.toError (fetcher.NewTimeoutError err))), f, g')
  | None =>
      match http with
      | resty.Failed err =>
          ((0%float, Some (fetcher.toError (fetcher.NewNetworkError err))), f, g')
      | resty.Responded resp decoded =>
          let result := default zeroResponse decoded in
          if negb (resty.IsSuccess resp) then
            let fetchErr := fetcher.ClassifyHTTPError (resty.StatusCode resp) in
            ((0%float,
              Some (fetcher.fmt_Errorf_w
                      ("failed to fetch property valuation for "
                         +:+ Address (params f) +:+ ": ")
                      (fetcher.toError fetchErr))), f, g')
          else if (Price result =? 0)%float then
            ((0%float,
              Some (fetcher.toError (fetcher.NewValidationError
                      ("price not found in response for " +:+ Address (params f))))),
             f, g')
          else
            ((Price result, None),
             mkPropertyFetcher (apiKey f) (params f) (client f) (Some result), g')
      end
  end.

(** [func (f *PropertyFetcher) GetLastResponse() *PropertyValueResponse] *)
Definition GetLastResponse (f : PropertyFetcher) : option PropertyValueResponse :=
  lastResponse f.

(** [func (f *PropertyFetcher) Key() string] *)
Definition Key (f : PropertyFetcher) : string :=
  let addressStub :=
    strings.ToLower unicode_ToLower (strings.ReplaceAll (Address (params f)) " " "_") in
  let addressStub := strings.ReplaceAll addressStub "," "" in
  "fetcher:rentcast:" +:+ addressStub.

End WithLibraries.
End rentcast.

(* ===================================================================== *)
(** * Package math/big, as far as the wallet adapter uses it              *)
(* ===================================================================== *)

Module big.

(** A [*big.Int] is an integer of [Z]. *)
Definition digitValue (c : ascii) : option Z :=
  if ((48 <=? nat_of_ascii c) && (nat_of_ascii c <=? 57))%nat
  then Some (Z.of_nat (nat_of_ascii c) - 48) else None.

Fixpoint scanDigits (acc : Z) (s : string) : option Z :=
  match s with
  | EmptyString => Some acc
  | String c s' =>
      match digitValue c with
      | Some d => scanDigits (10 * acc + d) s'
      | None => None
      end
  end.

Definition scanNat (s : string) : option Z :=
  match s with
  | EmptyString => None
  | String _ _ => scanDigits 0 s
  end.

(** [z.SetString(s, 10)]: an optional sign, then one or more decimal
    digits, and nothing else; [None] is the result [ok == false]. *)
Definition Int_SetString (s : string) : option Z :=
  match s with
  | String "+"%char s' => scanNat s'
  | String "-"%char s' => Z.opp <$> scanNat s'
  | _ => scanNat s
  end.

(** [x.BitLen()] *)
Definition Int_BitLen (x : Z) : Z :=
  if x =? 0 then 0 else Z.log2 (Z.abs x) + 1.

(** [big.MaxExp]: the exponent of a [*big.Float] is an [int32]. *)
Definition MaxExp : Z := 2147483647.

(** A [*big.Float]: its precision in bits (0 while unset) and its value;
    the rounding mode is the default one, to nearest even.  The value is a
    [spec_float] read at the precision of the number. *)
Record Float := mkFloat { prec : Z; val : spec_float }.

(** [new(big.Float)] *)
Definition Float_new : Float := mkFloat 0 (S754_zero false).

(** [z.SetInt(x)]: an unset precision becomes the larger of [x.BitLen()]
    and 64, and [x] is rounded to the precision of [z]. *)
Definition Float_SetInt (z : Float) (x : Z) : Float :=
  let p := if prec z =? 0 then Z.max (Int_BitLen x) 64 else prec z in
  mkFloat p (binary_normalize p MaxExp x 0 false).

(** [big.NewFloat(x)] for a finite [x]: precision 53, value [x]. *)
Definition NewFloat (x : float64) : Float := mkFloat 53 (Prim2SF x).

(** [z.Quo(x, y)]: an unset precision of [z] becomes the larger of the
    precisions of [x] and [y]; the quotient is rounded to the precision of
    [z]. *)
Definition Float_Quo (z x y : Float) : Float :=
  let p := if prec z =? 0 then Z.max (prec x) (prec y) else prec z in
  mkFloat p (SFdiv p MaxExp (val x) (val y)).

(** [x.Float64()]: the nearest [float64], ties to even. *)
Definition Float_Float64 (x : Float) : float64 :=
  match val x with
  | S754_finite s m e =>
      SF2Prim (binary_normalize 53 1024 (if s then Z.neg m else Z.pos m) e s)
  | v => SF2Prim v
  end.

End big.

(* ===================================================================== *)
(** * Package etherscan: the wallet-balance adapter                       *)
(* ===================================================================== *)

Module etherscan.

Definition weiPerEth : float64 := 1e18%float.

(** The anonymous struct under the key ["result"] of the price response. *)
Record EthPriceResult := mkEthPriceResult {
  EthBTC : string;
  EthBTCTimestamp : string;
  EthUSD : string;
  EthUSDTimestamp : string
}.

(** [type EthPriceResponse struct] *)
Record EthPriceResponse := mkEthPriceResponse {
  ep_Status : string;
  ep_Message : string;
  ep_Result : EthPriceResult
}.

(** [type BalanceResponse struct] *)
Record BalanceResponse := mkBalanceResponse {
  Status : string;
  Message : string;
  Result : string
}.

Definition zeroEthPriceResponse : EthPriceResponse :=
  mkEthPriceResponse "" "" (mkEthPriceResult "" "" "" "").
Definition zeroBalanceResponse : BalanceResponse := mkBalanceResponse "" "" "".

(** [type WalletFetcher struct] *)
Record WalletFetcher := mkWalletFetcher {
  apiKey : string;
  address : string;
  client : resty.Client
}.

Section WithLibraries.
Context `{Libraries}.

(** [func NewWalletFetcher(apiKey, address, baseURL string) *WalletFetcher] *)
Definition NewWalletFetcher (apiKey address baseURL : string) : WalletFetcher :=
  mkWalletFetcher apiKey address
    (resty.SetHeader "Accept" "application/json" (resty.SetBaseURL baseURL resty_New)).

(** [func (f *WalletFetcher) fetchEthPrice(ctx context.Context)
    (float64, error)]; [http] is what the price request comes back with. *)
Definition fetchEthPrice (f : WalletFetcher) (ctx : context.Context)
    (http : resty.Reply EthPriceResponse) : float64 * option error :=
  match http with
  | resty.Failed err =>
      (0%float, Some (fetcher.fmt_Errorf_w "failed to fetch ETH price: " err))
  | resty.Responded resp decoded =>
      let result := default zeroEthPriceResponse decoded in
      if negb (resty.IsSuccess resp) then
        (0%float, Some (errorString ("etherscan API returned status "
                                       +:+ fmt_d (resty.StatusCode resp))))
      else if String.eqb (EthUSD (ep_Result result)) "" then
        (0%float, Some (errorString "ETH price not found in response"))
      else
        match strconv_ParseFloat (EthUSD (ep_Result result)) with
        | (_, Some err) =>
            (0%float, Some (fetcher.fmt_Errorf_w "failed to parse ETH price: " err))
        | (price, None) => (price, None)
        end
  end.

(** The conversion at the end of [Fetch]: wei to ETH through [big.Float],
    then to [float64], then times the price. *)
Definition usdValue (weiBalance : Z) (ethUSD : float64) : float64 :=
  let ethBalance := big.Float_SetInt big.Float_new weiBalance in
  let ethBalance := big.Float_Quo ethBalance ethBalance (big.NewFloat weiPerEth) in
  let ethFloat := big.Float_Float64 ethBalance in
  (ethFloat * ethUSD)%float.

(** [func (f *WalletFetcher) Fetch(ctx context.Context) (float64, error)];
    [httpPrice] and [httpBalance] are what the two requests come back with,
    and the second is only looked at when the first call succeeded. *)
Definition Fetch (f : WalletFetcher) (ctx : context.Context)
    (httpPrice : resty.Reply EthPriceResponse)
    (httpBalance : resty.Reply BalanceResponse) : float64 * option error :=
  match fetchEthPrice f ctx httpPrice with
  | (_, Some err) => (0%float, Some err)
  | (ethUSD, None) =>
      match httpBalance with
      | resty.Failed err =>
          (0%float, Some (fetcher.fmt_Errorf_w "failed to fetch wallet balance: " err))
      | resty.Responded resp decoded =>
          let balanceResult := default zeroBalanceResponse decoded in
          if negb (resty.IsSuccess resp) then
            (0%float, Some (errorString ("etherscan API returned status "
                                           +:+ fmt_d (resty.StatusCode resp))))
          else if String.eqb (Result balanceResult) "" then
            (0%float, Some (errorString "balance not found in response"))
          else
            match big.Int_SetString (Result balanceResult) with
            | None =>
                (0%float, Some (errorString ("failed to parse balance: "
                                               +:+ Result balanceResult)))
            | Some weiBalance => (usdValue weiBalance ethUSD, None)
            end
      end
  end.

(** [func (f *WalletFetcher) Key() string] *)
Definition Key (f : WalletFetcher) : string :=
  "fetcher:etherscan:" +:+ address f.

End WithLibraries.
End etherscan.

(* ===================================================================== *)
(** * Package coordinator: fan-out, fan-in                                *)
(* ===================================================================== *)

Module coordinator.

(** [type Coordinator struct] *)
Record Coordinator := mkCoordinator { fetchers : list fetcher.Fetcher }.

(** [func New(fetchers []fetcher.Fetcher) *Coordinator] *)
Definition New (fetchers : list fetcher.Fetcher) : Coordinator :=
  mkCoordinator fetchers.

(** The goroutine that calls [Run]: before the length test, inside the
    launching loop with the fetchers still to launch, inside the [range]
    over the channel, and after [return]. *)
Variant Main :=
| MCheck
| MLaunch (rest : list fetcher.Fetcher)
| MRange
| MReturned (err : option error).

(** A worker goroutine: about to call [ft.Fetch(ctx)], about to send its
    result, about to run the deferred [wg.Done()], and gone. *)
Variant Worker :=
| WFetch (ft : fetcher.Fetcher)
| WSend (r : fetcher.Result)
| WDone
| WExited.

(** The goroutine [wg.Wait(); close(resultChan)]. *)
Variant Closer := CNotStarted | CWait | CClose | CExited.

(** The state of one call of [Run]: the goroutines, the counter of the
    [WaitGroup], the buffered channel (capacity, queue, closed flag), the
    lines written to standard output, and whether the runtime panicked. *)
Record State := mkState {
  main : Main;
  workers : list Worker;
  closer : Closer;
  wg : Z;
  cap : Z;
  buf : list fetcher.Result;
  closed : bool;
  stdout : list string;
  panicked : bool
}.

(** A scheduling decision: which goroutine runs its next statement. *)
Variant Action := AMain | AWorker (i : nat) | ACloser.

Definition newline : string := String (ascii_of_nat 10) EmptyString.

Section WithLibraries.
Context `{Libraries}.

(** The line the [range] loop prints for a result. *)
Definition line (result : fetcher.Result) : string :=
  match fetcher.Error_ result with
  | Some err => fetcher.Key result +:+ ": ERROR - " +:+ fetcher.Error err +:+ newline
  | None => fetcher.Key result +:+ ": $" +:+ fmt_2f (fetcher.Value result) +:+ newline
  end.

(** The body of a worker up to the send: the [Result] it builds. *)
Definition outcome (ctx : context.Context) (ft : fetcher.Fetcher) : fetcher.Result :=
  let '(value, err) := fetcher.Fetch ft ctx in
  fetcher.mkResult (fetcher.Key_ ft) value err.

Definition init : State :=
  mkState MCheck [] CNotStarted 0 0 [] false [] false.

Definition stepMain (c : Coordinator) (s : State) : option State :=
  match main s with
  | MCheck =>
      if Z.of_nat (length (fetchers c)) =? 0 then
        Some (mkState (MReturned (Some (errorString "no fetchers configured")))
                (workers s) (closer s) (wg s) (cap s) (buf s) (closed s)
                (stdout s) (panicked s))
      else
        (* resultChan := make(chan fetcher.Result, len(c.fetchers)) *)
        Some (mkState (MLaunch (fetchers c)) (workers s) (closer s) (wg s)
                (Z.of_nat (length (fetchers c))) [] false (stdout s) (panicked s))
  | MLaunch (f :: rest) =>
      (* wg.Add(1); go func(ft fetcher.Fetcher) { ... }(f) *)
      Some (mkState (MLaunch rest) (workers s ++ [WFetch f]) (closer s) (wg s + 1)
              (cap s) (buf s) (closed s) (stdout s) (panicked s))
  | MLaunch [] =>
      (* go func() { wg.Wait(); close(resultChan) }() *)
      Some (mkState MRange (workers s) CWait (wg s) (cap s) (buf s) (closed s)
              (stdout s) (panicked s))
  | MRange =>
      match buf s with
      | result :: rest =>
          Some (mkState MRange (workers s) (closer s) (wg s) (cap s) rest (closed s)
                  (stdout s ++ [line result]) (panicked s))
      | [] =>
          if closed s then
            Some (mkState (MReturned None) (workers s) (closer s) (wg s) (cap s)
                    (buf s) (closed s) (stdout s) (panicked s))
          else None
      end
  | MReturned _ => None
  end.

Definition setWorker (i : nat) (w : Worker) (s : State) : State :=
  mkState (main s) (<[i := w]> (workers s)) (closer s) (wg s) (cap s) (buf s)
    (closed s) (stdout s) (panicked s).

Definition stepWorker (ctx : context.Context) (i : nat) (s : State) : option State :=
  match workers s !! i with
  | Some (WFetch ft) => Some (setWorker i (WSend (outcome ctx ft)) s)
  | Some (WSend r) =>
      if closed s then
        (* a send on a closed channel panics *)
        Some (mkState (main s) (workers s) (closer s) (wg s) (cap s) (buf s)
                (closed s) (stdout s) true)
      else if Z.of_nat (length (buf s)) <? cap s then
        Some (mkState (main s) (<[i := WDone]> (workers s)) (closer s) (wg s) (cap s)
                (buf s ++ [r]) (closed s) (stdout s) (panicked s))
      else None
  | Some WDone =>
      if wg s - 1 <? 0 then
        (* a negative WaitGroup counter panics *)
        Some (mkState (main s) (workers s) (closer s) (wg s) (cap s) (buf s)
                (closed s) (stdout s) true)
      else
        Some (mkState (main s) (<[i := WExited]> (workers s)) (closer s) (wg s - 1)
                (cap s) (buf s) (closed s) (stdout s) (panicked s))
  | Some WExited | None => None
  end.

Definition stepCloser (s : State) : option State :=
  match closer s with
  | CWait =>
      if wg s =? 0 then
        Some (mkState (main s) (workers s) CClose (wg s) (cap s) (buf s) (closed s)
                (stdout s) (panicked s))
      else None
  | CClose =>
      Some (mkState (main s) (workers s) CExited (wg s) (cap s) (buf s) true
              (stdout s) (panicked s))
  | CNotStarted | CExited => None
  end.

(** One statement of one goroutine; [None] when that goroutine is blocked
    or gone.  After a panic the program is over. *)
Definition step (c : Coordinator) (ctx : context.Context) (a : Action) (s : State)
  : option State :=
  if panicked s then None
  else match a with
       | AMain => stepMain c s
       | AWorker i => stepWorker ctx i s
       | ACloser => stepCloser s
       end.

(** Running [Run] under a schedule, given as the list of its decisions. *)
Fixpoint exec (c : Coordinator) (ctx : context.Context) (sched : list Action)
    (s : State) : option State :=
  match sched with
  | [] => Some s
  | a :: sched' =>
      match step c ctx a s with
      | Some s' => exec c ctx sched' s'
      | None => None
      end
  end.

(** The states [Run] can be in. *)
Inductive reachable (c : Coordinator) (ctx : context.Context) : State -> Prop :=
| reach_init : reachable c ctx init
| reach_step a s s' :
    reachable c ctx s -> step c ctx a s = Some s' -> reachable c ctx s'.

(** Whatever the scheduler does from [s], [Run] gets to a state where [P]
    holds: [s] satisfies [P], or some goroutine can move and every move
    leads to a state from which this holds again. *)
Inductive inevitably (c : Coordinator) (ctx : context.Context) (P : State -> Prop)
  : State -> Prop :=
| inev_now s : P s -> inevitably c ctx P s
| inev_step s :
    (exists a s', step c ctx a s = Some s') ->
    (forall a s', step c ctx a s = Some s' -> inevitably c ctx P s') ->
    inevitably c ctx P s.

(** What [Run] has produced when it is over: the value it returned and the
    lines it printed. *)
Definition returns (s : State) (err : option error) (out : list string) : Prop :=
  main s = MReturned err /\ stdout s = out /\ panicked s = false.

(** *** What stays true while [Run] executes *)

(** The result a worker still owes to the channel. *)
Definition pending (ctx : context.Context) (w : Worker) : list fetcher.Result :=
  match w with
  | WFetch ft => [outcome ctx ft]
  | WSend r => [r]
  | WDone | WExited => []
  end.

(** A worker counts in the [WaitGroup] until its [wg.Done()]. *)
Definition alive (w : Worker) : nat :=
  match w with
  | WExited => 0
  | WFetch _ | WSend _ | WDone => 1
  end.

(** The fetchers the launching loop has not reached yet. *)
Definition unlaunched (c : Coordinator) (m : Main) : list fetcher.Fetcher :=
  match m with
  | MCheck => fetchers c
  | MLaunch rest => rest
  | MRange | MReturned _ => []
  end.

(** The main goroutine has left the launching loop. *)
Definition pastLoop (m : Main) : bool :=
  match m with
  | MRange | MReturned None => true
  | MCheck | MLaunch _ | MReturned (Some _) => false
  end.

(** The main goroutine has passed the length test. *)
Definition pastCheck (m : Main) : bool :=
  match m with
  | MLaunch _ | MRange | MReturned None => true
  | MCheck | MReturned (Some _) => false
  end.

(** The lines [Run] is to print: one per fetcher. *)
Definition expected (c : Coordinator) (ctx : context.Context) : list string :=
  map line (map (outcome ctx) (fetchers c)).

Record Inv (c : Coordinator) (ctx : context.Context) (s : State) : Prop := mkInv {
  inv_panicked : panicked s = false;
  inv_wg : wg s = Z.of_nat (sum_list_with alive (workers s));
  inv_lines :
    stdout s ++ map line (buf s ++ (workers s ≫= pending ctx)
                          ++ map (outcome ctx) (unlaunched c (main s)))
    ≡ₚ expected c ctx;
  inv_cap : main s <> MCheck -> cap s = Z.of_nat (length (fetchers c));
  inv_closer : closer s = CNotStarted <-> pastLoop (main s) = false;
  inv_waited : closer s = CClose \/ closer s = CExited -> wg s = 0;
  inv_closed : closed s = true <-> closer s = CExited;
  inv_check : main s = MCheck -> s = init;
  inv_failed : forall e, main s = MReturned (Some e) ->
                 fetchers c = [] /\ workers s = []
                 /\ e = errorString "no fetchers configured";
  inv_nonempty : pastCheck (main s) = true -> fetchers c <> [];
  inv_done : main s = MReturned None -> closed s = true /\ buf s = []
}.

(** The number of statements the goroutines still have to run. *)
Definition weight (w : Worker) : nat :=
  match w with
  | WFetch _ => 4
  | WSend _ => 3
  | WDone => 1
  | WExited => 0
  end.

Definition measure (c : Coordinator) (s : State) : nat :=
  match main s with
  | MCheck => 5 * length (fetchers c) + 3
  | MLaunch rest => 5 * length rest + 2
  | MRange => 1
  | MReturned _ => 0
  end
  + sum_list_with weight (workers s)
  + match closer s with
    | CNotStarted | CWait => 2
    | CClose => 1
    | CExited => 0
    end
  + length (buf s).

End WithLibraries.
End coordinator.

(* ===================================================================== *)
(** * Package testutil: the mock fetcher                                  *)
(* ===================================================================== *)

Module testutil.

(** [type MockFetcher struct]; a [nil] function field is [None]. *)
Record MockFetcher := mkMockFetcher {
  FetchFunc : option (context.Context -> float64 * option error);
  KeyFunc : option (unit -> string)
}.

(** [func (m *MockFetcher) Fetch(ctx context.Context) (float64, error)] *)
Definition Fetch (m : MockFetcher) (ctx : context.Context) : float64 * option error :=
  match FetchFunc m with
  | Some f => f ctx
  | None => (0%float, None)
  end.

(** [func (m *MockFetcher) Key() string] *)
Definition Key (m : MockFetcher) : string :=
  match KeyFunc m with
  | Some k => k tt
  | None => "mock:key"
  end.

(** A [*MockFetcher] as a value of the interface [fetcher.Fetcher]. *)
Definition asFetcher (m : MockFetcher) : fetcher.Fetcher :=
  fetcher.mkFetcher (Fetch m) (Key m).

(** [func NewMockFetcher(key string, value float64, err error)
    fetcher.Fetcher] *)
Definition NewMockFetcher (key : string) (value : float64) (err : option error)
  : fetcher.Fetcher :=
  asFetcher (mkMockFetcher (Some (fun _ => (value, err))) (Some (fun _ => key))).

End testutil.

(* ===================================================================== *)
(** * An instance of the libraries, to run the program on examples        *)
(* ===================================================================== *)

Module golibs.

(** Decimal literals [[+-] digits [. digits]] with at least one digit. *)
Fixpoint scanFraction (mant : Z) (nfrac : Z) (s : string) : option (Z * Z) :=
  match s with
  | EmptyString => Some (mant, nfrac)
  | String c s' =>
      match big.digitValue c with
      | Some d => scanFraction (10 * mant + d) (nfrac + 1) s'
      | None => None
      end
  end.

(** The digits before the point are accumulated in [mant]; [nd] counts the
    digits seen.  The result is the mantissa, the number of digits after
    the point and the number of digits in all. *)
Fixpoint scanDecimal (mant : Z) (nd : Z) (s : string) : option (Z * Z * Z) :=
  match s with
  | EmptyString => Some (mant, 0, nd)
  | String c s' =>
      if Ascii.eqb c "."%char then
        match scanFraction mant 0 s' with
        | Some (m, nfrac) => Some (m, nfrac, nd + nfrac)
        | None => None
        end
      else
        match big.digitValue c with
        | Some d => scanDecimal (10 * mant + d) (nd + 1) s'
        | None => None
        end
  end.

(** The binary64 nearest to [(-1)^neg * mant / 10^nfrac], ties to even. *)
Definition roundDecimal (neg : bool) (mant nfrac : Z) : float64 :=
  match mant with
  | Zpos m =>
      SF2Prim (SFdiv 53 1024 (S754_finite neg m 0)
                 (S754_finite false (Z.to_pos (10 ^ nfrac)) 0))
  | _ => SF2Prim (S754_zero neg)
  end.

Definition quote (s : string) : string :=
  String (ascii_of_nat 34) (s +:+ String (ascii_of_nat 34) EmptyString).

(** [strconv.ParseFloat(s, 64)] on the strings that are such literals, or
    that are no number in any of the forms Go accepts.  (Go also accepts
    exponents, hexadecimal mantissas, infinities, NaN and underscores
    between digits; the examples use none of these.) *)
Definition ParseFloat (s : string) : float64 * option error :=
  let '(neg, body) :=
    match s with
    | String "+"%char s' => (false, s')
    | String "-"%char s' => (true, s')
    | _ => (false, s)
    end in
  match scanDecimal 0 0 body with
  | Some (mant, nfrac, nd) =>
      if 0 <? nd then
        let f := roundDecimal neg mant nfrac in
        if PrimFloat.is_infinity f then
          (f, Some (errorString ("strconv.ParseFloat: parsing " +:+ quote s
                                   +:+ ": value out of range")))
        else (f, None)
      else (0%float, Some (errorString ("strconv.ParseFloat: parsing " +:+ quote s
                                          +:+ ": invalid syntax")))
  | None => (0%float, Some (errorString ("strconv.ParseFloat: parsing " +:+ quote s
                                           +:+ ": invalid syntax")))
  end.

(** [fmt.Sprintf("%.2f", v)]: the value is rounded to two decimals, ties
    to even, on its exact binary expansion. *)
Definition twoDigits (n : Z) : string :=
  if n <? 10 then "0" +:+ fmt_d n else fmt_d n.

Definition Sprintf_2f (v : float64) : string :=
  match Prim2SF v with
  | S754_zero s => if s then "-0.00" else "0.00"
  | S754_infinity s => if s then "-Inf" else "+Inf"
  | S754_nan => "NaN"
  | S754_finite s m e =>
      let num := if 0 <=? e then Z.pos m * 100 * 2 ^ e else Z.pos m * 100 in
      let den := if 0 <=? e then 1 else 2 ^ (- e) in
      let q := num / den in
      let r := num mod den in
      let cents :=
        if 2 * r <? den then q
        else if den <? 2 * r then q + 1
        else if Z.even q then q else q + 1 in
      (if s then "-" else "") +:+ fmt_d (cents / 100) +:+ "." +:+ twoDigits (cents mod 100)
  end.

(** A [*rate.Limiter] of rate [rate.Inf], as the limiters of test mode are:
    it never makes the caller wait; [Wait] fails only when the context is
    over already, and [Allow] always agrees. *)
Record Unthrottled := mkUnthrottled { limit : float64; burst : Z }.

Definition libraries : Libraries := {|
  resty_New :=
    resty.mkClient "" ∅ 0 (100 * time.Millisecond) (2000 * time.Millisecond) [] [];
  strconv_ParseFloat := ParseFloat;
  fmt_2f := Sprintf_2f;
  unicode_ToLower := fun s => s;
  rate_Limiter := Unthrottled;
  rate_NewLimiter := mkUnthrottled;
  rate_Wait := fun lim ctx => (lim, 0, context.Err ctx);
  rate_Allow := fun lim => (lim, true)
|}.

(** A process started by [go test]. *)
Definition testProcess : @ratelimit.Globals libraries :=
  @ratelimit.mkGlobals libraries
    (ratelimit.mkEnviron "" ["fetcher.test"; "-test.v=true"]) None.

End golibs.

(* ===================================================================== *)
(** * The fetch units: the three adapters behind the interface            *)
(* ===================================================================== *)

Module units.

(** The types of this program that implement [fetcher.Fetcher]. *)
Variant FetchUnit :=
| Wallet (f : etherscan.WalletFetcher)
| Quote (f : alphavantage.StockFetcher)
| Valuation (f : rentcast.PropertyFetcher).

(** The adapters written against the error constructors of package
    [fetcher]; the wallet adapter builds its errors with [fmt.Errorf]. *)
Definition usesTaxonomy (u : FetchUnit) : bool :=
  match u with
  | Wallet _ => false
  | Quote _ | Valuation _ => true
  end.

(** The name of the data source of a unit. *)
Definition source (u : FetchUnit) : string :=
  match u with
  | Wallet _ => ratelimit.APIEtherscan
  | Quote _ => ratelimit.APIAlphaVantage
  | Valuation _ => ratelimit.APIRentcast
  end.

Section WithLibraries.
Context `{Libraries}.

(** What one invocation of [Fetch] meets: the context it is given, the state
    of the rate limiter, and what each request it may send comes back
    with. *)
Record World := mkWorld {
  ctx : context.Context;
  limiterState : ratelimit.Globals;
  ethPriceReply : resty.Reply etherscan.EthPriceResponse;
  balanceReply : resty.Reply etherscan.BalanceResponse;
  quoteReply : resty.Reply alphavantage.GlobalQuoteResponse;
  valuationReply : resty.Reply rentcast.PropertyValueResponse
}.

(** The identifier of a unit: the wallet address, the ticker, or the stub
    that [rentcast.Key] makes of the address of the property. *)
Definition identifier (u : FetchUnit) : string :=
  match u with
  | Wallet f => etherscan.address f
  | Quote f => alphavantage.ticker f
  | Valuation f =>
      strings.ReplaceAll
        (strings.ToLower unicode_ToLower
           (strings.ReplaceAll (rentcast.Address (rentcast.params f)) " " "_"))
        "," ""
  end.

(** The method [Key] through the interface. *)
Definition Key (u : FetchUnit) : string :=
  match u with
  | Wallet f => etherscan.Key f
  | Quote f => alphavantage.Key f
  | Valuation f => rentcast.Key f
  end.

(** The method [Fetch] through the interface: the two Go results. *)
Definition Fetch (u : FetchUnit) (w : World) : float64 * option error :=
  match u with
  | Wallet f => etherscan.Fetch f (ctx w) (ethPriceReply w) (balanceReply w)
  | Quote f => fst (alphavantage.Fetch f (ctx w) (limiterState w) (quoteReply w))
  | Valuation f =>
      fst (fst (rentcast.Fetch f (ctx w) (limiterState w) (valuationReply w)))
  end.

End WithLibraries.

(** The two replacements of [rentcast.Key], byte by byte. *)
Definition spaceToUnderscore (c : ascii) : ascii :=
  if Ascii.eqb " "%char c then "_"%char else c.

Fixpoint dropCommas (s : string) : string :=
  match s with
  | EmptyString => EmptyString
  | String c s' =>
      if Ascii.eqb ","%char c then dropCommas s' else String c (dropCommas s')
  end.

(** The identifier the spec asks for in a key: lower case, every space
    replaced by an underscore, every comma removed. *)
Definition normalizeByte (c : ascii) : string :=
  if Ascii.eqb c " "%char then "_"
  else if Ascii.eqb c ","%char then ""
  else String (strings.lowerByte c) EmptyString.

Fixpoint normalize (s : string) : string :=
  match s with
  | EmptyString => EmptyString
  | String c s' => normalizeByte c +:+ normalize s'
  end.


End units.

(** Units and worlds to run the adapters on, with the libraries of
    [golibs] in a test process. *)
Module examples.

Definition response (status : Z) : resty.Response :=
  resty.mkResponse status (resty.mkRequest "http://localhost" 1).

Definition unused {T : Type} : resty.Reply T :=
  resty.Failed (errorString "no such request in this example").

Definition quoteAAPL : units.FetchUnit :=
  units.Quote (@alphavantage.NewStockFetcher golibs.libraries "test_key" "AAPL"
                 "http://localhost").

Definition wallet0x123 : units.FetchUnit :=
  units.Wallet (@etherscan.NewWalletFetcher golibs.libraries "test_key" "0x123"
                  "http://localhost").

(** The quote request is answered with [status] and no decoded body. *)
Definition quoteWorld (status : Z) : @units.World golibs.libraries :=
  @units.mkWorld golibs.libraries context.Background golibs.testProcess
    unused unused (resty.Responded (response status) None) unused.

(** The price request of the wallet is answered with [status] and no
    decoded body. *)
Definition ethPriceWorld (status : Z) : @units.World golibs.libraries :=
  @units.mkWorld golibs.libraries context.Background golibs.testProcess
    (resty.Responded (response status) None) unused unused unused.

(** A quote body with the given price field. *)
Definition quoteBody (price : string) : gmap string (gmap string string) :=
  {[ "Global Quote" := <["05. price" := price]> {[ "01. symbol" := "AAPL" ]} ]}.

(** A quote body without a price field. *)
Definition quoteBodyNoPrice : gmap string (gmap string string) :=
  {[ "Global Quote" := {[ "01. symbol" := "AAPL" ]} ]}.

(** The binary64 nearest to 178.23, which is what the Go constant 178.23
    denotes. *)
Definition f178_23 : float64 := 0x1.6475c28f5c28fp+7%float.

(** The two replies of the wallet tests: the price and the balance. *)
Definition ethPriceReply (ethusd : string) : resty.Reply etherscan.EthPriceResponse :=
  resty.Responded (response 200)
    (Some (etherscan.mkEthPriceResponse "1" "OK"
             (etherscan.mkEthPriceResult "0.05" "1234567890" ethusd "1234567890"))).

Definition balanceReply (wei : string) : resty.Reply etherscan.BalanceResponse :=
  resty.Responded (response 200) (Some (etherscan.mkBalanceResponse "1" "OK" wei)).

Definition walletFetcher0x123 : etherscan.WalletFetcher :=
  @etherscan.NewWalletFetcher golibs.libraries "test_key" "0x123" "http://localhost".

(** The fetchers of the coordinator test with a failing unit. *)
Definition withErrors : list fetcher.Fetcher :=
  [testutil.NewMockFetcher "test:key1" 100%float None;
   testutil.NewMockFetcher "test:key2" 0%float (Some (errorString "fetch failed"));
   testutil.NewMockFetcher "test:key3" 300%float None].

(** One schedule of [Run] over three fetchers: the third worker delivers
    first, then the first, then the second. *)
Definition schedule : list coordinator.Action :=
  [coordinator.AMain; coordinator.AMain; coordinator.AMain; coordinator.AMain;
   coordinator.AMain;
   coordinator.AWorker 2; coordinator.AWorker 2; coordinator.AWorker 0;
   coordinator.AWorker 0; coordinator.AMain; coordinator.AWorker 1;
   coordinator.AWorker 1; coordinator.AWorker 2; coordinator.AWorker 0;
   coordinator.AWorker 1; coordinator.ACloser; coordinator.AMain;
   coordinator.ACloser; coordinator.AMain; coordinator.AMain].

End examples.

(* ===================================================================== *)
(** * The adapters before the error taxonomy                              *)
(* ===================================================================== *)

(** The repository also holds the quote adapter and the valuation adapter
    as they were before package [fetcher] got its error taxonomy, its
    retrying client and the rate limiter: the same structs, with [Fetch]
    building its errors with [fmt.Errorf]. *)

Module alphavantage_plain.
Section WithLibraries.
Context `{Libraries}.

(** [func NewStockFetcher(apiKey, ticker, baseURL string) *StockFetcher] *)
Definition NewStockFetcher (apiKey ticker baseURL : string) : alphavantage.StockFetcher :=
  alphavantage.mkStockFetcher apiKey ticker
    (resty.SetHeader "Accept" "application/json" (resty.SetBaseURL baseURL resty_New)).

(** [func (f *StockFetcher) Fetch(ctx context.Context) (float64, error)] *)
Definition Fetch (f : alphavantage.StockFetcher) (ctx : context.Context)
    (http : resty.Reply alphavantage.GlobalQuoteResponse) : float64 * option error :=
  match http with
  | resty.Failed err =>
      (0%float,
       Some (fetcher.fmt_Errorf_w
               ("failed to fetch stock price for " +:+ alphavantage.ticker f +:+ ": ") err))
  | resty.Responded resp decoded =>
      let result := default alphavantage.zeroResponse decoded in
      if negb (resty.IsSuccess resp) then
        (0%float, Some (errorString ("alphavantage API returned status "
                                       +:+ fmt_d (resty.StatusCode resp))))
      else if String.eqb (alphavantage.Price (alphavantage.Global_Quote result)) "" then
        (0%float, Some (errorString ("price not found in response for "
                                       +:+ alphavantage.ticker f)))
      else
        match strconv_ParseFloat (alphavantage.Price (alphavantage.Global_Quote result)) with
        | (_, Some err) =>
            (0%float, Some (fetcher.fmt_Errorf_w "failed to parse stock price: " err))
        | (price, None) => (price, None)
        end
  end.

End WithLibraries.
End alphavantage_plain.

Module rentcast_plain.
Section WithLibraries.
Context `{Libraries}.

(** [func NewPropertyFetcher(apiKey string, params PropertyParams,
    baseURL string) *PropertyFetcher] *)
Definition NewPropertyFetcher (apiKey : string) (params : rentcast.PropertyParams)
    (baseURL : string) : rentcast.PropertyFetcher :=
  rentcast.mkPropertyFetcher apiKey params
    (resty.SetHeader "X-Api-Key" apiKey
       (resty.SetHeader "Accept" "application/json" (resty.SetBaseURL baseURL resty_New)))
    None.

(** [func (f *PropertyFetcher) Fetch(ctx context.Context) (float64, error)],
    with the fetcher after the call. *)
Definition Fetch (f : rentcast.PropertyFetcher) (ctx : context.Context)
    (http : resty.Reply rentcast.PropertyValueResponse)
  : (float64 * option error) * rentcast.PropertyFetcher :=
  match http with
  | resty.Failed err =>
      ((0%float,
        Some (fetcher.fmt_Errorf_w
                ("failed to fetch property valuation for "
                   +:+ rentcast.Address (rentcast.params f) +:+ ": ") err)), f)
  | resty.Responded resp decoded =>
      let result := default rentcast.zeroResponse decoded in
      if negb (resty.IsSuccess resp) then
        ((0%float, Some (errorString ("rentcast API returned status "
                                        +:+ fmt_d (resty.StatusCode resp)))), f)
      else if (rentcast.Price result =? 0)%float then
        ((0%float, Some (errorString ("price not found in response for "
                                        +:+ rentcast.Address (rentcast.params f)))), f)
      else
        ((rentcast.Price result, None),
         rentcast.mkPropertyFetcher (rentcast.apiKey f) (rentcast.params f)
           (rentcast.client f) (Some result))
  end.

End WithLibraries.
End rentcast_plain.

(* ===================================================================== *)
(** * Package config: loading and validating the configuration           *)
(* ===================================================================== *)

Module config.

(** [type PropertyConfig struct] *)
Record PropertyConfig := mkPropertyConfig {
  Address : string;
  PropertyType : string;
  Bedrooms : Z;
  Bathrooms : float64;
  SquareFootage : Z
}.

(** [type Config struct] *)
Record Config := mkConfig {
  EtherscanAPIKey : string;
  AlphavantageAPIKey : string;
  RentcastAPIKey : string;
  GuidelineEmail : string;
  GuidelinePassword : string;
  EtherscanBaseURL : string;
  AlphavantageBaseURL : string;
  RentcastBaseURL : string;
  GuidelineBaseURL : string;
  EthereumWallets : list string;
  StockSymbols : list string;
  Properties : list PropertyConfig
}.

(** [strings.Join(elems, sep)] *)
Fixpoint Join (elems : list string) (sep : string) : string :=
  match elems with
  | [] => ""
  | [e] => e
  | e :: rest => e +:+ sep +:+ Join rest sep
  end.

(** The names [Load] collects in [missing], in the order of its five
    tests; [append] adds at the end. *)
Definition missingOf (config : Config) : list string :=
  let missing : list string := [] in
  let missing :=
    if String.eqb (EtherscanAPIKey config) "" then (missing ++ ["ETHERSCAN_API_KEY"])%list
    else missing in
  let missing :=
    if String.eqb (AlphavantageAPIKey config) "" then (missing ++ ["ALPHAVANTAGE_API_KEY"])%list
    else missing in
  let missing :=
    if String.eqb (RentcastAPIKey config) "" then (missing ++ ["RENTCAST_API_KEY"])%list
    else missing in
  let missing :=
    if String.eqb (GuidelineEmail config) "" then (missing ++ ["GUIDELINE_EMAIL"])%list
    else missing in
  let missing :=
    if String.eqb (GuidelinePassword config) "" then (missing ++ ["GUIDELINE_PASSWORD"])%list
    else missing in
  missing.

(** [func Load()], which returns a [*Config] and an [error], from the point where viper has
    unmarshalled: [config] is the struct [v.Unmarshal] filled and
    [unmarshalErr] the error it returned. *)
Definition Load (config : Config) (unmarshalErr : option error)
  : option Config * option error :=
  match unmarshalErr with
  | Some err => (None, Some (fetcher.fmt_Errorf_w "failed to unmarshal config: " err))
  | None =>
      let missing := missingOf config in
      if 0 <? Z.of_nat (length missing) then
        (None, Some (errorString ("missing required configuration: "
                                    +:+ Join missing ", ")))
      else (Some config, None)
  end.

(** The helper [contains] of the tests of the package: the loop tries
    the offsets [i], [i+1], ... for [n] rounds. *)
Fixpoint containsFrom (n : nat) (i : nat) (s substr : string) : bool :=
  match n with
  | O => false
  | S n' =>
      if String.eqb (String.substring i (String.length substr) s) substr then true
      else containsFrom n' (S i) s substr
  end.

(** [func contains(s, substr string) bool] *)
Definition contains (s substr : string) : bool :=
  (String.length substr <=? String.length s)%nat
  && (String.eqb s substr
      || (String.length substr =? 0)%nat
      || containsFrom (String.length s - String.length substr + 1) 0 s substr).

End config.

(* ===================================================================== *)
(** * Package main: the fetchers made from the configuration              *)
(* ===================================================================== *)

Module main_.
Section WithLibraries.
Context `{Libraries}.

(** The three loops of [main] that fill [fetchers]: one wallet fetcher
    per wallet, then one stock fetcher per symbol, then one property
    fetcher per property, each appended at the end. *)
Definition buildFetchers (cfg : config.Config) : list units.FetchUnit :=
  let fetchers : list units.FetchUnit := [] in
  let fetchers :=
    fold_left
      (fun fetchers wallet =>
         (fetchers ++ [units.Wallet
                        (etherscan.NewWalletFetcher (config.EtherscanAPIKey cfg) wallet
                           (config.EtherscanBaseURL cfg))])%list)
      (config.EthereumWallets cfg) fetchers in
  let fetchers :=
    fold_left
      (fun fetchers symbol =>
         (fetchers ++ [units.Quote
                        (alphavantage.NewStockFetcher (config.AlphavantageAPIKey cfg) symbol
                           (config.AlphavantageBaseURL cfg))])%list)
      (config.StockSymbols cfg) fetchers in
  let fetchers :=
    fold_left
      (fun fetchers prop =>
         (fetchers ++ [units.Valuation
                        (rentcast.NewPropertyFetcher (config.RentcastAPIKey cfg)
                           (rentcast.mkPropertyParams (config.Address prop)
                              (config.PropertyType prop) (config.Bedrooms prop)
                              (config.Bathrooms prop) (config.SquareFootage prop))
                           (config.RentcastBaseURL cfg))])%list)
      (config.Properties cfg) fetchers in
  fetchers.

(** A unit as a value of the interface [fetcher.Fetcher], as [main] puts
    it into the slice: its [Key], and for its [Fetch] what a call on the
    unit returns, [fetch], which is up to the servers and the limiter. *)
Definition asFetcher (fetch : units.FetchUnit -> context.Context -> float64 * option error)
    (u : units.FetchUnit) : fetcher.Fetcher :=
  fetcher.mkFetcher (fetch u) (units.Key u).

End WithLibraries.
End main_.

(* ===================================================================== *)
(** * Theorems                                                            *)
(* ===================================================================== *)

(** ** The error classifier *)

Lemma ClassifyHTTPError_StatusCode (statusCode : Z) :
  fetcher.StatusCode (fetcher.ClassifyHTTPError statusCode) = statusCode.
Proof.
  unfold fetcher.ClassifyHTTPError.
  destruct (statusCode =? 429), (500 <=? statusCode), (400 <=? statusCode);
    reflexivity.
Qed.

Lemma ClassifyHTTPError_taxonomy (statusCode : Z) :
  In (fetcher.Type_ (fetcher.ClassifyHTTPError statusCode)) fetcher.taxonomy.
Proof.
  unfold fetcher.ClassifyHTTPError.
  destruct (statusCode =? 429), (500 <=? statusCode), (400 <=? statusCode);
    cbn; tauto.
Qed.

(** C2: the classifier maps 429 to a RateLimit error that is retryable, a
    status of 500 or more to a Server error that is retryable, a status in
    400..499 other than 429 to a Client error that is not retryable, and
    every other status to an Unknown error that is not retryable; the
    result depends on the status code only. *)
Theorem ClassifyHTTPError_spec (statusCode : Z) :
  let e := fetcher.ClassifyHTTPError statusCode in
  (statusCode = 429 ->
     fetcher.Type_ e = fetcher.ErrorTypeRateLimit /\ fetcher.Retryable e = true)
  /\ (500 <= statusCode ->
     fetcher.Type_ e = fetcher.ErrorTypeServer /\ fetcher.Retryable e = true)
  /\ (400 <= statusCode <= 499 -> statusCode <> 429 ->
     fetcher.Type_ e = fetcher.ErrorTypeClient /\ fetcher.Retryable e = false)
  /\ (statusCode < 400 ->
     fetcher.Type_ e = fetcher.ErrorTypeUnknown /\ fetcher.Retryable e = false).
Proof.
  cbv zeta. unfold fetcher.ClassifyHTTPError.
  destruct (Z.eqb_spec statusCode 429) as [->|Hne].
  - repeat split; intros; try reflexivity; lia.
  - destruct (Z.leb_spec 500 statusCode).
    + repeat split; intros; try reflexivity; lia.
    + destruct (Z.leb_spec 400 statusCode);
        repeat split; intros; try reflexivity; lia.
Qed.

Lemma ClassifyHTTPError_spec_witness :
  fetcher.Type_ (fetcher.ClassifyHTTPError 429) = fetcher.ErrorTypeRateLimit
  /\ fetcher.Type_ (fetcher.ClassifyHTTPError 503) = fetcher.ErrorTypeServer
  /\ fetcher.Type_ (fetcher.ClassifyHTTPError 404) = fetcher.ErrorTypeClient
  /\ fetcher.Type_ (fetcher.ClassifyHTTPError 302) = fetcher.ErrorTypeUnknown.
Proof.
  split; [| split; [| split]].
  - apply (ClassifyHTTPError_spec 429). reflexivity.
  - apply (ClassifyHTTPError_spec 503). lia.
  - apply (ClassifyHTTPError_spec 404); lia.
  - apply (ClassifyHTTPError_spec 302). lia.
Defined.

(** The message of a classified error, as [Error()] prints it. *)
Example ClassifyHTTPError_404_message :
  fetcher.FetchError_Error (fetcher.ClassifyHTTPError 404)
  = "client error (status 404): client error: HTTP 404".
Proof. reflexivity. Qed.

(** ** The retry policy *)

(** C3: the retry decision is [true] on any transport error, on every
    status of 500 or more, on 429 and on 408, and [false] on every other
    status in 400..499; a client made by [NewHTTPClient] retries at most 3
    times, waits 1 second at first and 10 seconds at most, and decides
    with [retryCondition]. *)
Theorem retry_policy_spec `{Libraries} :
  (forall r err, fetcher.retryCondition r (Some err) = true)
  /\ (forall r, 500 <= resty.StatusCode r -> fetcher.retryCondition r None = true)
  /\ (forall r, resty.StatusCode r = 429 -> fetcher.retryCondition r None = true)
  /\ (forall r, resty.StatusCode r = 408 -> fetcher.retryCondition r None = true)
  /\ (forall r, 400 <= resty.StatusCode r <= 499 ->
        resty.StatusCode r <> 429 -> resty.StatusCode r <> 408 ->
        fetcher.retryCondition r None = false)
  /\ (forall baseURL,
        let c := fetcher.NewHTTPClient baseURL in
        resty.RetryCount c = 3
        /\ resty.RetryWaitTime c = 1 * time.Second
        /\ resty.RetryMaxWaitTime c = 10 * time.Second
        /\ resty.RetryConditions c
           = (resty.RetryConditions resty_New ++ [fetcher.retryCondition])%list).
Proof.
  split; [reflexivity |].
  split; [| split; [| split; [| split]]]; intros r; unfold fetcher.retryCondition.
  - intros Hs. destruct (Z.leb_spec 500 (resty.StatusCode r)); [reflexivity | lia].
  - intros ->. reflexivity.
  - intros ->. reflexivity.
  - intros Hs H429 H408.
    destruct (Z.leb_spec 500 (resty.StatusCode r)); [lia |].
    destruct (Z.eqb_spec (resty.StatusCode r) 429); [contradiction |].
    destruct (Z.eqb_spec (resty.StatusCode r) 408); [contradiction |].
    destruct (_ && _); reflexivity.
  - cbn. repeat split; reflexivity.
Qed.

Lemma retry_policy_spec_witness :
  fetcher.retryCondition (resty.mkResponse 503 (resty.mkRequest "u" 1)) None = true
  /\ fetcher.retryCondition (resty.mkResponse 429 (resty.mkRequest "u" 1)) None = true
  /\ fetcher.retryCondition (resty.mkResponse 408 (resty.mkRequest "u" 1)) None = true
  /\ fetcher.retryCondition (resty.mkResponse 404 (resty.mkRequest "u" 1)) None = false.
Proof.
  pose proof (@retry_policy_spec golibs.libraries) as (_ & H5 & H429 & H408 & H4 & _).
  split; [| split; [| split]].
  - apply H5. cbn. lia.
  - apply H429. reflexivity.
  - apply H408. reflexivity.
  - apply H4; cbn; lia.
Defined.

(** ** Keys *)

Section KeyFacts.
Context `{Libraries}.

Lemma prefix_one (o c : ascii) (s : string) :
  String.prefix (String o EmptyString) (String c s) = Ascii.eqb o c.
Proof.
  cbn. destruct (ascii_dec o c) as [->|Hne].
  - rewrite Ascii.eqb_refl. now destruct s.
  - symmetry. now apply Ascii.eqb_neq.
Qed.

(** Replacing a one-byte [old] works byte by byte. *)
Lemma replaceFrom_one (o : ascii) (new s : string) :
  strings.replaceFrom (String o EmptyString) new 0 s
  = match s with
    | EmptyString => EmptyString
    | String c s' =>
        if Ascii.eqb o c
        then new +:+ strings.replaceFrom (String o EmptyString) new 0 s'
        else String c (strings.replaceFrom (String o EmptyString) new 0 s')
    end.
Proof. destruct s as [|c s']; [reflexivity |]. cbn -[String.prefix]. now rewrite prefix_one. Qed.

Lemma ReplaceAll_space (s : string) :
  strings.ReplaceAll s " " "_" = strings.mapBytes units.spaceToUnderscore s.
Proof.
  unfold strings.ReplaceAll.
  induction s as [|c s IH]; [reflexivity |].
  rewrite replaceFrom_one, IH. cbn [strings.mapBytes]. unfold units.spaceToUnderscore.
  now destruct (Ascii.eqb " " c).
Qed.

Lemma ReplaceAll_comma (s : string) :
  strings.ReplaceAll s "," "" = units.dropCommas s.
Proof.
  unfold strings.ReplaceAll.
  induction s as [|c s IH]; [reflexivity |].
  rewrite replaceFrom_one, IH. cbn [units.dropCommas].
  now destruct (Ascii.eqb "," c).
Qed.

Lemma isASCII_spaceToUnderscore (s : string) :
  strings.isASCII (strings.mapBytes units.spaceToUnderscore s) = strings.isASCII s.
Proof.
  induction s as [|c s IH]; [reflexivity |].
  cbn [strings.mapBytes strings.isASCII]. rewrite IH. f_equal.
  unfold units.spaceToUnderscore.
  destruct (Ascii.eqb_spec " "%char c) as [<-|]; reflexivity.
Qed.

(** Lowering a byte neither makes nor unmakes a comma. *)
Lemma lowerByte_comma (c : ascii) :
  Ascii.eqb ","%char (strings.lowerByte c) = Ascii.eqb ","%char c.
Proof.
  destruct (Ascii.eqb_spec ","%char c) as [<-|Hne]; [reflexivity |].
  apply Ascii.eqb_neq. intros Heq. apply Hne.
  unfold strings.lowerByte in Heq.
  destruct (strings.isUpperByte c) eqn:Hup; [| exact Heq].
  exfalso. unfold strings.isUpperByte in Hup.
  apply andb_prop in Hup as [Hlo Hhi].
  apply Nat.leb_le in Hlo, Hhi.
  apply (f_equal nat_of_ascii) in Heq.
  rewrite nat_ascii_embedding in Heq by lia.
  change (nat_of_ascii ","%char) with 44%nat in Heq. lia.
Qed.

(** The three library calls of [Key], byte by byte. *)
Lemma addressStub_bytes (s : string) :
  strings.ReplaceAll
    (strings.ToLower unicode_ToLower (strings.ReplaceAll s " " "_")) "," ""
  = units.dropCommas
      (strings.ToLower unicode_ToLower (strings.mapBytes units.spaceToUnderscore s)).
Proof. now rewrite ReplaceAll_space, ReplaceAll_comma. Qed.

(** On ASCII input they amount to the normalisation the spec describes. *)
Lemma addressStub_normalize (s : string) :
  strings.isASCII s = true ->
  units.dropCommas
    (strings.ToLower unicode_ToLower (strings.mapBytes units.spaceToUnderscore s))
  = units.normalize s.
Proof.
  intros Hascii. unfold strings.ToLower.
  rewrite isASCII_spaceToUnderscore, Hascii. clear Hascii.
  induction s as [|c s IH]; [reflexivity |].
  cbn [strings.mapBytes units.normalize units.dropCommas]. rewrite IH.
  unfold units.normalizeByte, units.spaceToUnderscore.
  rewrite lowerByte_comma.
  rewrite (Ascii.eqb_sym c " "%char), (Ascii.eqb_sym c ","%char).
  destruct (Ascii.eqb_spec " "%char c) as [<-|Hsp]; [reflexivity |].
  now destruct (Ascii.eqb ","%char c).
Qed.

End KeyFacts.

(** C6, as the spec states it, fails: a key is not [source:identifier];
    the wallet unit for address 0xAbC does not have the key
    [etherscan:0xAbC], nor the quote unit for AAPL the key
    [alphavantage:AAPL]. *)
Lemma Key_format_counterexample :
  etherscan.Key (etherscan.mkWalletFetcher "k" "0xAbC" (@resty_New golibs.libraries))
    <> "etherscan:0xAbC"
  /\ alphavantage.Key (alphavantage.mkStockFetcher "k" "AAPL" (@resty_New golibs.libraries))
    <> "alphavantage:AAPL".
Proof. split; discriminate. Qed.

(** C6, amended: for every fetch unit [Key] is a total function of the
    unit whose result is [fetcher:source:identifier], with [:] between
    the three parts: the source is etherscan, alphavantage or rentcast,
    and the identifier is the wallet address, the ticker, or the
    address stub of the property; the wallet unit for 0xAbC has the key
    [fetcher:etherscan:0xAbC] and the quote unit for AAPL the key
    [fetcher:alphavantage:AAPL]. *)
Theorem Key_format `{Libraries} (u : units.FetchUnit) :
  units.Key u = "fetcher" +:+ ":" +:+ units.source u +:+ ":" +:+ units.identifier u
  /\ (forall k c, units.Key (units.Wallet (etherscan.mkWalletFetcher k "0xAbC" c))
                  = "fetcher:etherscan:0xAbC")
  /\ (forall k c, units.Key (units.Quote (alphavantage.mkStockFetcher k "AAPL" c))
                  = "fetcher:alphavantage:AAPL").
Proof.
  split; [| split; reflexivity].
  destruct u as [f|f|f]; reflexivity.
Qed.

(** The keys the tests of the adapters expect. *)
Example Key_wallet_test :
  etherscan.Key (@etherscan.NewWalletFetcher golibs.libraries "test_key"
                   "0x742d35Cc6634C0532925a3b844Bc9e7595f0bEb" "http://localhost")
  = "fetcher:etherscan:0x742d35Cc6634C0532925a3b844Bc9e7595f0bEb".
Proof. reflexivity. Qed.

(** A ticker is put into the key as it is: only the valuation adapter
    normalises its identifier. *)
Example Key_quote_verbatim :
  alphavantage.Key (alphavantage.mkStockFetcher "k" "BRK B" (@resty_New golibs.libraries))
  = "fetcher:alphavantage:BRK B".
Proof. reflexivity. Qed.

(** C7, as the spec states it, fails: not every identifier with a space
    or a comma is normalised.  The quote unit for the ticker "BRK B" has
    the key [fetcher:alphavantage:BRK B], with its space and its capitals,
    and the wallet unit for the address "0xAbC, 0xDeF" the key
    [fetcher:etherscan:0xAbC, 0xDeF], with its comma, its space and its
    capitals; neither is the key with the normalised identifier. *)
Lemma Key_normalizes_counterexample :
  alphavantage.Key (alphavantage.mkStockFetcher "k" "BRK B" (@resty_New golibs.libraries))
  = "fetcher:alphavantage:BRK B"
  /\ units.normalize "BRK B" = "brk_b"
  /\ alphavantage.Key (alphavantage.mkStockFetcher "k" "BRK B" (@resty_New golibs.libraries))
     <> "fetcher:alphavantage:" +:+ units.normalize "BRK B"
  /\ etherscan.Key (etherscan.mkWalletFetcher "k" "0xAbC, 0xDeF" (@resty_New golibs.libraries))
     = "fetcher:etherscan:0xAbC, 0xDeF"
  /\ units.normalize "0xAbC, 0xDeF" = "0xabc_0xdef"
  /\ etherscan.Key (etherscan.mkWalletFetcher "k" "0xAbC, 0xDeF" (@resty_New golibs.libraries))
     <> "fetcher:etherscan:" +:+ units.normalize "0xAbC, 0xDeF".
Proof.
  repeat split; try reflexivity; intros Heq; vm_compute in Heq; discriminate Heq.
Qed.

(** C7, amended: the key of a property unit is the prefix
    [fetcher:rentcast:] followed by the address with every space replaced
    by an underscore, put in lower case, and with every comma removed; for
    an address of ASCII bytes, where lower case is a matter of bytes, this
    is the byte-wise normalisation of the address; the address
    "5500 Grand Lake Dr, San Antonio, TX 78244" gives a key that ends in
    5500_grand_lake_dr_san_antonio_tx_78244. *)
Theorem Key_normalizes `{Libraries} (f : rentcast.PropertyFetcher) :
  let address := rentcast.Address (rentcast.params f) in
  rentcast.Key f
  = "fetcher:rentcast:"
    +:+ units.dropCommas
          (strings.ToLower unicode_ToLower
             (strings.mapBytes units.spaceToUnderscore address))
  /\ (strings.isASCII address = true ->
      rentcast.Key f = "fetcher:rentcast:" +:+ units.normalize address)
  /\ (address = "5500 Grand Lake Dr, San Antonio, TX 78244" ->
      rentcast.Key f = "fetcher:rentcast:5500_grand_lake_dr_san_antonio_tx_78244").
Proof.
  cbv zeta.
  assert (Hbytes : rentcast.Key f = "fetcher:rentcast:"
            +:+ units.dropCommas
                  (strings.ToLower unicode_ToLower
                     (strings.mapBytes units.spaceToUnderscore
                        (rentcast.Address (rentcast.params f))))).
  { unfold rentcast.Key. cbv zeta. now rewrite addressStub_bytes. }
  split; [exact Hbytes |]. rewrite Hbytes. split.
  - intros Hascii. now rewrite addressStub_normalize.
  - intros ->. reflexivity.
Qed.

Lemma Key_normalizes_witness :
  @rentcast.Key golibs.libraries
    (@rentcast.NewPropertyFetcher golibs.libraries "test_key"
       (rentcast.mkPropertyParams "5500 Grand Lake Dr, San Antonio, TX 78244"
          "Single Family" 3 2%float 1878)
       "http://localhost")
  = "fetcher:rentcast:5500_grand_lake_dr_san_antonio_tx_78244".
Proof.
  apply (@Key_normalizes golibs.libraries
           (@rentcast.NewPropertyFetcher golibs.libraries "test_key"
              (rentcast.mkPropertyParams "5500 Grand Lake Dr, San Antonio, TX 78244"
                 "Single Family" 3 2%float 1878)
              "http://localhost")).
  reflexivity.
Defined.

(** ** The rate limiter *)

(** C8: for a source that has no token bucket in the limiter, [Wait]
    returns no error, without blocking and without touching the limiter,
    and [Allow] answers [true]. *)
Theorem unknown_source_permitted `{Libraries}
    (l : ratelimit.Limiter) (ctx : context.Context) (api : ratelimit.API) :
  ratelimit.limiters l !! api = None ->
  ratelimit.Wait l ctx api = (l, 0, None) /\ ratelimit.Allow l api = (l, true).
Proof.
  intros Hnone. unfold ratelimit.Wait, ratelimit.Allow. rewrite Hnone. now split.
Qed.

Lemma unknown_source_permitted_witness :
  let l := fst (@ratelimit.GetLimiter golibs.libraries golibs.testProcess) in
  @ratelimit.Wait golibs.libraries l (context.mkContext (Some context.Canceled))
    "guideline" = (l, 0, None)
  /\ @ratelimit.Allow golibs.libraries l "guideline" = (l, true).
Proof.
  apply (@unknown_source_permitted golibs.libraries). reflexivity.
Defined.

(** The singleton registers the three sources of the program and no other,
    in test mode and in production. *)
Lemma GetLimiter_registered `{Libraries} (env : ratelimit.Environ) (api : ratelimit.API) :
  let l := fst (ratelimit.GetLimiter (ratelimit.mkGlobals env None)) in
  is_Some (ratelimit.limiters l !! api)
  <-> api = ratelimit.APIEtherscan \/ api = ratelimit.APIAlphaVantage
      \/ api = ratelimit.APIRentcast.
Proof.
  cbn. unfold ratelimit.initLimiters.
  destruct (_ || _); cbn; rewrite !lookup_insert, lookup_empty;
    repeat case_decide; subst; split; intros Hx;
    try (destruct Hx as [? Hx]; discriminate Hx); eauto;
    try (destruct Hx as [Hx|[Hx|Hx]]; congruence).
Qed.

(** ** The adapters *)

Section AdapterFacts.
Context `{Libraries}.

Lemma toError_tagged (fe : fetcher.FetchError) :
  In (fetcher.Type_ fe) fetcher.taxonomy -> fetcher.tagged (fetcher.toError fe).
Proof. intros Hin. exists fe. split; [now destruct fe | exact Hin]. Qed.

Lemma wrapped_tagged (prefix : string) (err : error) :
  fetcher.tagged err -> fetcher.tagged (fetcher.fmt_Errorf_w prefix err).
Proof. intros (fe & Has & Hin). now exists fe. Qed.




(** Every way [alphavantage.Fetch] fails. *)
Lemma alphavantage_Fetch_failure f ctx g http v e g' :
  alphavantage.Fetch f ctx g http = ((v, Some e), g') ->
  v = 0%float /\ fetcher.tagged e.
Proof.
  unfold alphavantage.Fetch.
  destruct (ratelimit.getAndWait g ctx ratelimit.APIAlphaVantage) as [g1 [werr|]].
  { intros [= <- <- _]. split; [reflexivity |]. apply toError_tagged. cbn. tauto. }
  destruct http as [err|resp decoded].
  { intros [= <- <- _]. split; [reflexivity |]. apply toError_tagged. cbn. tauto. }
  cbv zeta. destruct (negb (resty.IsSuccess resp)).
  { intros [= <- <- _]. split; [reflexivity |].
    apply wrapped_tagged, toError_tagged, ClassifyHTTPError_taxonomy. }
  destruct (String.eqb _ "").
  { intros [= <- <- _]. split; [reflexivity |]. apply toError_tagged. cbn. tauto. }
  destruct (strconv_ParseFloat _) as [price [perr|]].
  - intros [= <- <- _]. split; [reflexivity |]. apply toError_tagged. cbn. tauto.
  - discriminate.
Qed.

(** Every way [rentcast.Fetch] fails. *)
Lemma rentcast_Fetch_failure f ctx g http v e f' g' :
  rentcast.Fetch f ctx g http = ((v, Some e), f', g') ->
  v = 0%float /\ fetcher.tagged e.
Proof.
  unfold rentcast.Fetch.
  destruct (ratelimit.getAndWait g ctx ratelimit.APIRentcast) as [g1 [werr|]].
  { intros [= <- <- _ _]. split; [reflexivity |]. apply toError_tagged. cbn. tauto. }
  destruct http as [err|resp decoded].
  { intros [= <- <- _ _]. split; [reflexivity |]. apply toError_tagged. cbn. tauto. }
  cbv zeta. destruct (negb (resty.IsSuccess resp)).
  { intros [= <- <- _ _]. split; [reflexivity |].
    apply wrapped_tagged, toError_tagged, ClassifyHTTPError_taxonomy. }
  destruct (PrimFloat.eqb _ _).
  - intros [= <- <- _ _]. split; [reflexivity |]. apply toError_tagged. cbn. tauto.
  - discriminate.
Qed.

Lemma fetchEthPrice_failure f ctx http v e :
  etherscan.fetchEthPrice f ctx http = (v, Some e) -> v = 0%float.
Proof.
  unfold etherscan.fetchEthPrice.
  destruct http as [err|resp decoded]; [now intros [= <- _] |].
  cbv zeta. destruct (negb _); [now intros [= <- _] |].
  destruct (String.eqb _ ""); [now intros [= <- _] |].
  destruct (strconv_ParseFloat _) as [price [perr|]]; [now intros [= <- _] | discriminate].
Qed.

(** Every way [etherscan.Fetch] fails. *)
Lemma etherscan_Fetch_failure f ctx httpPrice httpBalance v e :
  etherscan.Fetch f ctx httpPrice httpBalance = (v, Some e) -> v = 0%float.
Proof.
  unfold etherscan.Fetch.
  destruct (etherscan.fetchEthPrice f ctx httpPrice) as [ethUSD [perr|]];
    [now intros [= <- _] |].
  destruct httpBalance as [err|resp decoded]; [now intros [= <- _] |].
  cbv zeta. destruct (negb _); [now intros [= <- _] |].
  destruct (String.eqb _ ""); [now intros [= <- _] |].
  destruct (big.Int_SetString _); [discriminate | now intros [= <- _]].
Qed.

End AdapterFacts.

(** C10: whenever a fetch of a wallet, quote or valuation unit returns an
    error, the value returned with it is exactly 0. *)
Theorem failing_fetch_value_zero `{Libraries} (u : units.FetchUnit) (w : units.World)
    (v : float64) (e : error) :
  units.Fetch u w = (v, Some e) -> v = 0%float.
Proof.
  destruct u as [f|f|f]; cbn [units.Fetch].
  - apply etherscan_Fetch_failure.
  - destruct (alphavantage.Fetch _ _ _ _) as [[v' e'] g'] eqn:Hf.
    intros [= -> ->]. now apply alphavantage_Fetch_failure in Hf.
  - destruct (rentcast.Fetch _ _ _ _) as [[[v' e'] f'] g'] eqn:Hf.
    intros [= -> ->]. now apply rentcast_Fetch_failure in Hf.
Qed.

Lemma failing_fetch_value_zero_witness :
  fst (@units.Fetch golibs.libraries examples.quoteAAPL (examples.quoteWorld 503))
  = 0%float.
Proof.
  apply (@failing_fetch_value_zero golibs.libraries
           examples.quoteAAPL (examples.quoteWorld 503) _
           (fetcher.fmt_Errorf_w "failed to fetch stock price for AAPL: "
              (fetcher.toError (fetcher.ClassifyHTTPError 503)))).
  vm_compute. reflexivity.
Defined.

(** C9, as the spec states it, fails: when the price request of a wallet
    unit is answered with status 500, [Fetch] returns an error that neither
    is nor wraps a [*FetchError]. *)
Lemma failing_fetch_tagged_counterexample :
  @units.Fetch golibs.libraries examples.wallet0x123 (examples.ethPriceWorld 500)
  = (0%float, Some (errorString "etherscan API returned status 500"))
  /\ ~ fetcher.tagged (errorString "etherscan API returned status 500").
Proof.
  split; [vm_compute; reflexivity |].
  intros (fe & Has & _). discriminate Has.
Qed.

(** C9, amended: for a quote unit and for a valuation unit, the adapters
    that build their errors with the constructors of package [fetcher],
    every error a fetch returns is, or wraps, a [*FetchError] whose type is
    one of Network, RateLimit, Server, Client, Validation, Timeout and
    Unknown. *)
Theorem failing_fetch_tagged `{Libraries} (u : units.FetchUnit) (w : units.World)
    (v : float64) (e : error) :
  units.usesTaxonomy u = true ->
  units.Fetch u w = (v, Some e) -> fetcher.tagged e.
Proof.
  destruct u as [f|f|f]; cbn [units.Fetch units.usesTaxonomy]; [discriminate | |]; intros _.
  - destruct (alphavantage.Fetch _ _ _ _) as [[v' e'] g'] eqn:Hf.
    intros [= -> ->]. now apply alphavantage_Fetch_failure in Hf.
  - destruct (rentcast.Fetch _ _ _ _) as [[[v' e'] f'] g'] eqn:Hf.
    intros [= -> ->]. now apply rentcast_Fetch_failure in Hf.
Qed.

Lemma failing_fetch_tagged_witness :
  fetcher.tagged
    (fetcher.fmt_Errorf_w "failed to fetch stock price for AAPL: "
       (fetcher.toError (fetcher.ClassifyHTTPError 503))).
Proof.
  apply (@failing_fetch_tagged golibs.libraries
           examples.quoteAAPL (examples.quoteWorld 503) 0%float).
  - reflexivity.
  - vm_compute. reflexivity.
Defined.

(** The constant 178.23 of the tests: [examples.f178_23] is [m * 2^(-45)],
    at most half a unit in the last place away from 17823/100. *)
Example f178_23_nearest :
  Prim2SF examples.f178_23 = S754_finite false 6270910637392527 (-45)
  /\ Z.abs (100 * 6270910637392527 - 17823 * 2 ^ 45) <= 50.
Proof. split; [reflexivity | vm_compute; discriminate]. Qed.



(** The message the test of a missing price expects. *)
Example missing_price_message :
  (fetcher.Error <$>
     snd (fst (@alphavantage.Fetch golibs.libraries
                 (@alphavantage.NewStockFetcher golibs.libraries "test_key" "AAPL"
                    "http://localhost")
                 context.Background golibs.testProcess
                 (resty.Responded (examples.response 200)
                    (Some (alphavantage.decode examples.quoteBodyNoPrice))))))
  = Some "validation error: price not found in response for AAPL".
Proof. vm_compute. reflexivity. Qed.

(** ** The wallet conversion *)

(** The divisor [big.NewFloat(weiPerEth)] is exactly 10^18. *)
Lemma weiPerEth_exact :
  big.NewFloat etherscan.weiPerEth = big.mkFloat 53 (S754_finite false 7812500000000000 7)
  /\ 7812500000000000 * 2 ^ 7 = 10 ^ 18.
Proof. split; reflexivity. Qed.

(** The conversion, with the precision the [big.Float] ends up with. *)
Lemma usdValue_unfold (wei : Z) (ethUSD : float64) :
  let p := Z.max (big.Int_BitLen wei) 64 in
  etherscan.usdValue wei ethUSD
  = (big.Float_Float64
       (big.mkFloat p
          (SFdiv p big.MaxExp (binary_normalize p big.MaxExp wei 0 false)
             (S754_finite false 7812500000000000 7))) * ethUSD)%float.
Proof.
  cbv zeta. unfold etherscan.usdValue, big.Float_Quo, big.Float_SetInt, big.Float_new.
  cbn [big.prec big.val]. rewrite Z.eqb_refl.
  destruct (Z.eqb_spec (Z.max (big.Int_BitLen wei) 64) 0) as [Hz|_]; [lia |].
  destruct weiPerEth_exact as [-> _]. reflexivity.
Qed.

(** C4: when both requests of a wallet fetch succeed, the balance string is
    read as an integer of any size, converted to a [big.Float] of at least
    64 bits that holds it exactly, divided by 10^18, rounded to [float64]
    and multiplied by the price; the balance 1000000000000000000 at the
    price 2000.50 gives 2000.50, and the balance 100000000000000000000 at
    the price 3500.00 gives 350000.00. *)
Theorem wallet_value `{Libraries} (f : etherscan.WalletFetcher) (ctx : context.Context)
    (respPrice respBalance : resty.Response)
    (priceResult : etherscan.EthPriceResponse)
    (balanceResult : etherscan.BalanceResponse) (ethUSD : float64) :
  resty.IsSuccess respPrice = true ->
  etherscan.EthUSD (etherscan.ep_Result priceResult) <> "" ->
  strconv_ParseFloat (etherscan.EthUSD (etherscan.ep_Result priceResult)) = (ethUSD, None) ->
  resty.IsSuccess respBalance = true ->
  etherscan.Result balanceResult <> "" ->
  let fetched :=
    etherscan.Fetch f ctx (resty.Responded respPrice (Some priceResult))
      (resty.Responded respBalance (Some balanceResult)) in
  (forall wei, big.Int_SetString (etherscan.Result balanceResult) = Some wei ->
      let p := Z.max (big.Int_BitLen wei) 64 in
      let ethBalance :=
        big.mkFloat p
          (SFdiv p big.MaxExp (binary_normalize p big.MaxExp wei 0 false)
             (S754_finite false 7812500000000000 7)) in
      fetched = ((big.Float_Float64 ethBalance * ethUSD)%float, None))
  /\ (etherscan.Result balanceResult = "1000000000000000000" ->
      ethUSD = 2000.5%float -> fetched = (2000.5%float, None))
  /\ (etherscan.Result balanceResult = "100000000000000000000" ->
      ethUSD = 3500%float -> fetched = (350000%float, None)).
Proof.
  intros HokP HneP Hparse HokB HneB. cbv zeta.
  assert (Hfetch : forall wei,
             big.Int_SetString (etherscan.Result balanceResult) = Some wei ->
             etherscan.Fetch f ctx (resty.Responded respPrice (Some priceResult))
               (resty.Responded respBalance (Some balanceResult))
             = (etherscan.usdValue wei ethUSD, None)).
  { intros wei Hwei. unfold etherscan.Fetch, etherscan.fetchEthPrice.
    rewrite HokP, HokB. cbn [negb default from_option id].
    destruct (String.eqb_spec (etherscan.EthUSD (etherscan.ep_Result priceResult)) "");
      [contradiction |].
    rewrite Hparse.
    destruct (String.eqb_spec (etherscan.Result balanceResult) ""); [contradiction |].
    now rewrite Hwei. }
  split; [| split].
  - intros wei Hwei. rewrite (Hfetch wei Hwei). now rewrite usdValue_unfold.
  - intros Hs ->. rewrite (Hfetch (10 ^ 18)) by (rewrite Hs; reflexivity).
    vm_compute. reflexivity.
  - intros Hs ->. rewrite (Hfetch (10 ^ 20)) by (rewrite Hs; reflexivity).
    vm_compute. reflexivity.
Qed.

Lemma wallet_value_witness :
  @etherscan.Fetch golibs.libraries examples.walletFetcher0x123 context.Background
    (examples.ethPriceReply "2000.50") (examples.balanceReply "1000000000000000000")
  = (2000.5%float, None)
  /\ @etherscan.Fetch golibs.libraries examples.walletFetcher0x123 context.Background
       (examples.ethPriceReply "3500.00") (examples.balanceReply "100000000000000000000")
     = (350000%float, None).
Proof.
  split.
  - apply (@wallet_value golibs.libraries examples.walletFetcher0x123 context.Background
             (examples.response 200) (examples.response 200) _ _ 2000.5%float);
      try reflexivity; discriminate.
  - apply (@wallet_value golibs.libraries examples.walletFetcher0x123 context.Background
             (examples.response 200) (examples.response 200) _ _ 3500%float);
      try reflexivity; discriminate.
Defined.

(** The other cases of the wallet tests: a zero balance is worth 0, and a
    balance that is no number is an error. *)
Example wallet_zero_balance :
  @etherscan.Fetch golibs.libraries examples.walletFetcher0x123 context.Background
    (examples.ethPriceReply "2000.00") (examples.balanceReply "0")
  = (0%float, None).
Proof. vm_compute. reflexivity. Qed.

Example wallet_invalid_balance :
  @etherscan.Fetch golibs.libraries examples.walletFetcher0x123 context.Background
    (examples.ethPriceReply "2000.00") (examples.balanceReply "invalid_number")
  = (0%float, Some (errorString "failed to parse balance: invalid_number")).
Proof. vm_compute. reflexivity. Qed.

(** ** The coordinator *)

Section CoordinatorFacts.
Context `{Libraries} (c : coordinator.Coordinator) (ctx : context.Context).
Import coordinator.

Lemma sum_insert (f : Worker -> nat) (ws : list Worker) (i : nat) (w w' : Worker) :
  ws !! i = Some w ->
  (sum_list_with f (<[i := w']> ws) + f w = sum_list_with f ws + f w')%nat.
Proof.
  revert i. induction ws as [|x ws IH]; intros [|i] Hi; try discriminate.
  - injection Hi as ->. simpl. lia.
  - simpl in *. specialize (IH i Hi). lia.
Qed.

Lemma pending_insert (ws : list Worker) (i : nat) (w w' : Worker) :
  ws !! i = Some w ->
  (<[i := w']> ws ≫= pending ctx) ++ pending ctx w
  ≡ₚ (ws ≫= pending ctx) ++ pending ctx w'.
Proof.
  revert i. induction ws as [|x ws IH]; intros [|i] Hi; try discriminate.
  - injection Hi as ->. cbn [insert list_insert]. rewrite !bind_cons. solve_Permutation.
  - cbn [insert list_insert]. rewrite !bind_cons, <- !(assoc_L (++)).
    f_equiv. now apply IH.
Qed.

Lemma Inv_init : Inv c ctx init.
Proof.
  constructor; unfold expected; cbn; try done.
Qed.

Ltac lengths H :=
  repeat (rewrite length_app in H || rewrite List.length_map in H
          || rewrite app_nil_r in H).

Ltac side :=
  try done;
  try solve [ match goal with Hl : _ ≡ₚ _ |- _ => clear Hl end;
              cbn in *; intros; simplify_eq;
              intuition (simplify_eq; try done; try congruence; try lia) ].

Lemma alive_zero_pending (ws : list Worker) :
  sum_list_with alive ws = 0%nat -> ws ≫= pending ctx = [].
Proof.
  induction ws as [|w ws IH]; [done |].
  cbn [sum_list_with]. rewrite bind_cons. destruct w; cbn; try lia; auto.
Qed.

(** A worker that is about to send finds room in the channel. *)
Lemma send_room (s : State) (i : nat) (r : fetcher.Result) :
  Inv c ctx s -> workers s !! i = Some (WSend r) ->
  Z.of_nat (length (buf s)) < cap s.
Proof.
  intros HI Hw.
  assert (Hm : main s <> MCheck).
  { intros Hm. rewrite (inv_check _ _ _ HI Hm) in Hw. discriminate. }
  rewrite (inv_cap _ _ _ HI Hm).
  pose proof (Permutation_length (pending_insert _ _ _ WExited Hw)) as Hp.
  pose proof (Permutation_length (inv_lines _ _ _ HI)) as Hl. unfold expected in Hl.
  lengths Hp. lengths Hl. cbn in Hp. lia.
Qed.

(** A worker that has not exited keeps the counter positive. *)
Lemma worker_counted (s : State) (i : nat) (w : Worker) :
  Inv c ctx s -> workers s !! i = Some w -> alive w = 1%nat -> 0 < wg s.
Proof.
  intros HI Hw Hone. rewrite (inv_wg _ _ _ HI).
  pose proof (sum_list_with_in _ alive _ (list_elem_of_lookup_2 _ _ _ Hw)). lia.
Qed.

Lemma step_Inv (a : Action) (s s' : State) :
  Inv c ctx s -> step c ctx a s = Some s' ->
  Inv c ctx s' /\ (measure c s' < measure c s)%nat.
Proof.
  intros HI Hstep.
  pose proof HI as [Hpan Hwg Hlines Hcap Hcloser Hwaited Hclosed Hcheck Hfailed Hne Hdone].
  unfold step in Hstep. rewrite Hpan in Hstep. destruct a as [|i|].
  - (* the main goroutine *)
    unfold stepMain in Hstep. destruct (main s) as [|[|f rest]| |e] eqn:Hmain.
    + (* the length test *)
      specialize (Hcheck eq_refl). subst s. cbn in Hstep.
      destruct (Z.eqb_spec (Z.of_nat (length (fetchers c))) 0) as [Hlen|Hlen];
        injection Hstep as Hs'; subst s'.
      * assert (Hnil : fetchers c = []) by (destruct (fetchers c); [done | cbn in Hlen; lia]).
        split; [| unfold measure; cbn; lia].
        constructor; cbn; side.
        unfold expected. now rewrite Hnil.
      * split; [| unfold measure; cbn; lia].
        constructor; cbn; side.
        intros _ Hnil. now rewrite Hnil in Hlen.
    + (* the loop is over: start the closer *)
      injection Hstep as Hs'; subst s'.
      split; [| unfold measure; rewrite Hmain; cbn; destruct (closer s); side].
      constructor; cbn; side.
    + (* one more worker *)
      injection Hstep as Hs'; subst s'.
      split; [| unfold measure; rewrite Hmain; cbn; rewrite sum_list_with_app; cbn; lia].
      constructor; cbn; side.
      * rewrite sum_list_with_app. cbn. lia.
      * rewrite <- Hlines. cbn. rewrite bind_app. cbn.
        rewrite !map_app. cbn. solve_Permutation.
    + (* the range loop *)
      destruct (buf s) as [|result rest] eqn:Hbuf.
      * destruct (closed s) eqn:Hcl; [| discriminate].
        injection Hstep as Hs'; subst s'.
        split; [| unfold measure; rewrite Hmain; cbn; lia].
        constructor; cbn; side.
      * injection Hstep as Hs'; subst s'.
        split; [| unfold measure; rewrite Hmain, Hbuf; cbn; lia].
        constructor; cbn; side.
        rewrite <- Hlines. cbn. rewrite !map_app. cbn. solve_Permutation.
    + discriminate.
  - (* worker [i] *)
    unfold stepWorker in Hstep.
    destruct (workers s !! i) as [[ft|r| |]|] eqn:Hw; try discriminate.
    + (* the call of Fetch *)
      injection Hstep as Hs'; subst s'.
      pose proof (sum_insert alive _ _ _ (WSend (outcome ctx ft)) Hw) as Ha.
      pose proof (sum_insert weight _ _ _ (WSend (outcome ctx ft)) Hw) as Hm.
      pose proof (pending_insert _ _ _ (WSend (outcome ctx ft)) Hw) as Hp.
      cbn in Ha, Hm, Hp. apply (inj (.++ _)) in Hp.
      split; [| unfold measure; cbn; lia].
      constructor; cbn; side.
      * now rewrite Hp.
      * intros e He. destruct (Hfailed e He) as (_ & Hnil & _).
        rewrite Hnil in Hw. discriminate.
    + (* the send *)
      pose proof (worker_counted s i _ HI Hw eq_refl) as Halive.
      pose proof (send_room s i r HI Hw) as Hroom. clear HI.
      destruct (closed s) eqn:Hcl.
      { exfalso. destruct Hclosed as [Hc _].
        specialize (Hwaited (or_intror (Hc eq_refl))). lia. }
      destruct (Z.ltb_spec (Z.of_nat (length (buf s))) (cap s)); [| lia].
      injection Hstep as Hs'; subst s'.
      pose proof (sum_insert alive _ _ _ WDone Hw) as Ha.
      pose proof (sum_insert weight _ _ _ WDone Hw) as Hm.
      pose proof (pending_insert _ _ _ WDone Hw) as Hp.
      cbn in Ha, Hm, Hp. rewrite app_nil_r in Hp.
      split; [| unfold measure; cbn; rewrite length_app; cbn; lia].
      constructor; cbn; side.
      * rewrite <- Hlines, <- Hp. rewrite !map_app. cbn. solve_Permutation.
      * intros e He. destruct (Hfailed e He) as (_ & Hnil & _).
        rewrite Hnil in Hw. discriminate.
    + (* the deferred Done *)
      pose proof (worker_counted s i _ HI Hw eq_refl) as Halive. clear HI.
      destruct (Z.ltb_spec (wg s - 1) 0); [lia |].
      injection Hstep as Hs'; subst s'.
      pose proof (sum_insert alive _ _ _ WExited Hw) as Ha.
      pose proof (sum_insert weight _ _ _ WExited Hw) as Hm.
      pose proof (pending_insert _ _ _ WExited Hw) as Hp.
      cbn in Ha, Hm, Hp. rewrite !app_nil_r in Hp.
      split; [| unfold measure; cbn; lia].
      constructor; cbn; side.
      * now rewrite Hp.
      * intros e He. destruct (Hfailed e He) as (_ & Hnil & _).
        rewrite Hnil in Hw. discriminate.
  - (* the closer *)
    unfold stepCloser in Hstep. destruct (closer s) eqn:Hcl; try discriminate.
    + destruct (Z.eqb_spec (wg s) 0) as [Hz|]; [| discriminate].
      injection Hstep as Hs'; subst s'.
      split; [| unfold measure; rewrite Hcl; cbn; lia].
      constructor; cbn; side.
    + injection Hstep as Hs'; subst s'.
      split; [| unfold measure; rewrite Hcl; cbn; lia].
      constructor; cbn; side.
Qed.

Lemma reachable_Inv (s : State) : reachable c ctx s -> Inv c ctx s.
Proof.
  induction 1 as [|a s s' _ IH Hstep]; [apply Inv_init |].
  now apply (step_Inv a s s').
Qed.

(** Some worker has not exited when the counter is positive. *)
Lemma alive_lookup (ws : list Worker) :
  (0 < sum_list_with alive ws)%nat ->
  exists i w, ws !! i = Some w /\ alive w = 1%nat.
Proof.
  induction ws as [|w ws IH]; cbn; [lia |].
  destruct (alive w) eqn:Hw.
  - intros Hpos. destruct (IH Hpos) as (i & w' & Hi & Hw'). now exists (S i), w'.
  - intros _. exists 0%nat, w. split; [done |]. destruct w; cbn in *; congruence.
Qed.

(** No deadlock: until [Run] has returned, some goroutine can move. *)
Lemma progress (s : State) :
  Inv c ctx s -> (forall err, main s <> MReturned err) ->
  exists a s', step c ctx a s = Some s'.
Proof.
  intros HI Hrun. unfold step. rewrite (inv_panicked _ _ _ HI).
  destruct (main s) as [|rest| |err] eqn:Hmain; [| | | now destruct (Hrun err)].
  - exists AMain. unfold stepMain. rewrite Hmain. destruct (_ =? _); eauto.
  - exists AMain. unfold stepMain. rewrite Hmain. destruct rest; eauto.
  - destruct (buf s) as [|result rest] eqn:Hbuf;
      [| exists AMain; unfold stepMain; rewrite Hmain, Hbuf; eauto].
    destruct (closed s) eqn:Hclosed;
      [exists AMain; unfold stepMain; rewrite Hmain, Hbuf, Hclosed; eauto |].
    destruct (Nat.eq_dec (sum_list_with alive (workers s)) 0%nat) as [Hzero|Hpos].
    + (* every worker has exited: the closer moves *)
      exists ACloser. unfold stepCloser.
      pose proof (inv_wg _ _ _ HI) as Hwg. rewrite Hzero in Hwg.
      destruct (closer s) eqn:Hcl.
      * apply (inv_closer _ _ _ HI) in Hcl. rewrite Hmain in Hcl. discriminate.
      * rewrite Hwg. eauto.
      * eauto.
      * apply (inv_closed _ _ _ HI) in Hcl. congruence.
    + (* some worker has not exited: it moves *)
      destruct (alive_lookup (workers s)) as (i & w & Hw & Hone); [lia |].
      exists (AWorker i). unfold stepWorker. rewrite Hw.
      destruct w as [ft|r| |]; [eauto | | | discriminate].
      * rewrite Hclosed. pose proof (send_room s i r HI Hw) as Hroom.
        destruct (Z.ltb_spec (Z.of_nat (length (buf s))) (cap s)); [eauto | lia].
      * pose proof (worker_counted s i _ HI Hw eq_refl) as Hwg.
        destruct (Z.ltb_spec (wg s - 1) 0); [lia | eauto].
Qed.

(** What [Run] has produced once it has returned. *)
Lemma Inv_returned (s : State) (err : option error) :
  Inv c ctx s -> main s = MReturned err ->
  (fetchers c <> [] -> err = None /\ stdout s ≡ₚ expected c ctx)
  /\ (fetchers c = [] ->
      err = Some (errorString "no fetchers configured")
      /\ stdout s = [] /\ workers s = []).
Proof.
  intros HI Hmain. pose proof (inv_lines _ _ _ HI) as Hlines. rewrite Hmain in Hlines.
  cbn in Hlines. rewrite app_nil_r in Hlines.
  destruct err as [e|].
  - destruct (inv_failed _ _ _ HI e Hmain) as (Hnil & Hws & ->).
    split; [done |]. intros _. split; [done |]. split; [| done].
    unfold expected in Hlines. rewrite Hnil, Hws in Hlines. cbn in Hlines.
    apply Permutation_nil_r in Hlines. now apply app_eq_nil in Hlines as [-> _].
  - assert (Hne : fetchers c <> []) by (apply (inv_nonempty _ _ _ HI); now rewrite Hmain).
    split; [| done]. intros _. split; [done |].
    destruct (inv_done _ _ _ HI Hmain) as [Hclosed Hbuf].
    apply (inv_closed _ _ _ HI) in Hclosed.
    pose proof (inv_waited _ _ _ HI (or_intror Hclosed)) as Hwg.
    rewrite (inv_wg _ _ _ HI) in Hwg.
    rewrite Hbuf, alive_zero_pending in Hlines by lia.
    cbn in Hlines. now rewrite app_nil_r in Hlines.
Qed.

(** Whatever the schedule, [Run] returns. *)
Lemma Inv_inevitably (n : nat) (s : State) :
  (measure c s < n)%nat -> Inv c ctx s ->
  inevitably c ctx (fun s' => exists err out, returns s' err out) s.
Proof.
  revert s. induction n as [|n IH]; intros s Hlt HI; [lia |].
  destruct (main s) as [| | |err] eqn:Hmain.
  4: { apply inev_now. exists err, (stdout s).
       split; [done |]. split; [done | apply (inv_panicked _ _ _ HI)]. }
  all: apply inev_step;
    [ apply progress; [done | intros err; congruence]
    | intros a s' Hstep; destruct (step_Inv a s s' HI Hstep) as [HI' Hm];
      apply IH; [lia | done] ].
Qed.

End CoordinatorFacts.


(** A state that a schedule leads to is reachable. *)
Lemma exec_reachable `{Libraries} (c : coordinator.Coordinator) (ctx : context.Context)
    (sched : list coordinator.Action) (s s' : coordinator.State) :
  coordinator.reachable c ctx s -> coordinator.exec c ctx sched s = Some s' ->
  coordinator.reachable c ctx s'.
Proof.
  revert s. induction sched as [|a sched IH]; intros s Hs; cbn.
  - now intros [= <-].
  - destruct (coordinator.step c ctx a s) as [s1|] eqn:Hstep; [| discriminate].
    apply IH. now apply (coordinator.reach_step c ctx a s s1).
Qed.

(** X22: in no state of [Run] has the runtime panicked: [Run] never
    sends on the closed channel and never drives the counter of the
    [WaitGroup] below zero.  Nor does it close the channel twice: when the
    closer is about to close the channel, the channel is open, and once
    the channel is closed the closer has exited, so that no other
    [close] follows.  The counter of the [WaitGroup] is never negative. *)
Lemma Run_never_panics `{Libraries} (c : coordinator.Coordinator)
    (ctx : context.Context) (s : coordinator.State) :
  coordinator.reachable c ctx s ->
  coordinator.panicked s = false
  /\ (coordinator.closer s = coordinator.CClose -> coordinator.closed s = false)
  /\ (coordinator.closed s = true -> coordinator.closer s = coordinator.CExited)
  /\ 0 <= coordinator.wg s.
Proof.
  intros Hreach. pose proof (reachable_Inv c ctx s Hreach) as HI.
  split; [apply (coordinator.inv_panicked _ _ _ HI) |]. split; [| split].
  - intros Hcloser. destruct (coordinator.closed s) eqn:Hclosed; [| reflexivity].
    apply (coordinator.inv_closed _ _ _ HI) in Hclosed. congruence.
  - intros Hclosed. now apply (coordinator.inv_closed _ _ _ HI).
  - rewrite (coordinator.inv_wg _ _ _ HI). lia.
Qed.

(** C1: for a non-empty list of fetchers [Run] returns on every schedule,
    it returns no error however many fetchers fail, and it has then printed
    exactly one outcome per fetcher: the lines of the fetchers in some
    order.  For the empty list it returns the error "no fetchers
    configured", and in no state of that run has a worker been started or
    a line been printed. *)
Theorem Run_outcomes `{Libraries} (fetchers : list fetcher.Fetcher)
    (ctx : context.Context) :
  let c := coordinator.New fetchers in
  coordinator.inevitably c ctx
    (fun s => exists err out, coordinator.returns s err out) coordinator.init
  /\ (forall s err out,
        coordinator.reachable c ctx s -> coordinator.returns s err out ->
        (fetchers <> [] ->
           err = None /\ out ≡ₚ coordinator.expected c ctx
           /\ length out = length fetchers)
        /\ (fetchers = [] ->
           err = Some (errorString "no fetchers configured") /\ out = []))
  /\ (fetchers = [] ->
      forall s, coordinator.reachable c ctx s ->
                coordinator.workers s = [] /\ coordinator.stdout s = []).
Proof.
  cbv zeta. set (c := coordinator.New fetchers).
  split; [| split].
  - apply (Inv_inevitably c ctx (S (coordinator.measure c coordinator.init))); [lia |].
    apply Inv_init.
  - intros s err out Hreach (Hmain & <- & _).
    apply reachable_Inv in Hreach.
    destruct (Inv_returned c ctx s err Hreach Hmain) as [Hsome Hnone].
    split.
    + intros Hne. destruct (Hsome Hne) as [-> Hperm]. split; [done |]. split; [done |].
      rewrite Hperm. unfold coordinator.expected. now rewrite !List.length_map.
    + intros Hnil. now destruct (Hnone Hnil) as (-> & -> & _).
  - intros Hnil s Hreach. apply reachable_Inv in Hreach.
    destruct (coordinator.main s) as [|rest| |[e|]] eqn:Hmain.
    + now rewrite (coordinator.inv_check _ _ _ Hreach Hmain).
    + exfalso. apply (coordinator.inv_nonempty _ _ _ Hreach); [now rewrite Hmain | done].
    + exfalso. apply (coordinator.inv_nonempty _ _ _ Hreach); [now rewrite Hmain | done].
    + now destruct (Inv_returned c ctx s _ Hreach Hmain) as [_ Hnone];
        destruct (Hnone Hnil) as (_ & -> & ->).
    + exfalso. apply (coordinator.inv_nonempty _ _ _ Hreach); [now rewrite Hmain | done].
Qed.

Lemma Run_outcomes_witness :
  exists s,
    @coordinator.exec golibs.libraries (coordinator.New examples.withErrors)
      context.Background examples.schedule (@coordinator.init) = Some s
    /\ coordinator.main s = coordinator.MReturned None
    /\ coordinator.stdout s
       = ["test:key3: $300.00" +:+ coordinator.newline;
          "test:key1: $100.00" +:+ coordinator.newline;
          "test:key2: ERROR - fetch failed" +:+ coordinator.newline]
    /\ coordinator.stdout s
       ≡ₚ @coordinator.expected golibs.libraries (coordinator.New examples.withErrors)
            context.Background.
Proof.
  eexists. split; [vm_compute; reflexivity |].
  split; [reflexivity |]. split; [reflexivity |].
  eapply (@Run_outcomes golibs.libraries examples.withErrors context.Background).
  - eapply (@exec_reachable golibs.libraries _ _ examples.schedule);
      [apply coordinator.reach_init | vm_compute; reflexivity].
  - split; [reflexivity |]. split; reflexivity.
  - discriminate.
Defined.

(** [Run] on no fetchers: the first step returns the error. *)
Example Run_no_fetchers :
  (coordinator.main <$>
     @coordinator.exec golibs.libraries (coordinator.New []) context.Background
       [coordinator.AMain] coordinator.init)
  = Some (coordinator.MReturned (Some (errorString "no fetchers configured"))).
Proof. reflexivity. Qed.

(* ===================================================================== *)
(** * Further properties of the code                                      *)
(* ===================================================================== *)

(** ** More on the rate limiter *)

(** An argument counts for test mode when it is ["-test."] followed by at
    least one more byte. *)
Lemma testArg_spec (arg : string) :
  (6 <? Z.of_nat (String.length arg)) && String.eqb (String.substring 0 6 arg) "-test."
  = true
  <-> exists rest, arg = "-test." +:+ rest /\ rest <> "".
Proof.
  split.
  - intros Hb. apply andb_prop in Hb as [Hlen Heq].
    apply Z.ltb_lt in Hlen. apply String.eqb_eq in Heq.
    destruct arg as [|c1 [|c2 [|c3 [|c4 [|c5 [|c6 [|c7 rest]]]]]]];
      cbn in Hlen; try lia.
    exists (String c7 rest). split; [| discriminate].
    cbn in Heq. injection Heq as -> -> -> -> -> ->. reflexivity.
  - intros (rest & -> & Hne). destruct rest as [|c rest]; [contradiction |].
    apply andb_true_intro. split.
    + apply Z.ltb_lt. change ("-test." +:+ String c rest) with (String "-" (String "t" (String "e" (String "s" (String "t" (String "." (String c rest))))))). cbn [String.length]. lia.
    + reflexivity.
Qed.

(** X1: [isTestMode] answers [true] exactly when some argument of the
    process is ["-test."] followed by at least one more byte; the bare
    argument ["-test."] does not count. *)
Theorem isTestMode_spec (args : list string) :
  ratelimit.isTestMode args = true
  <-> exists arg rest, In arg args /\ arg = "-test." +:+ rest /\ rest <> "".
Proof.
  unfold ratelimit.isTestMode. rewrite existsb_exists. split.
  - intros (arg & Hin & Hb). apply testArg_spec in Hb as (rest & Harg & Hne).
    now exists arg, rest.
  - intros (arg & rest & Hin & Harg & Hne). exists arg. split; [done |].
    apply testArg_spec. now exists rest.
Qed.

Section LimiterFacts.
Context `{Libraries}.

(** X2: [GetLimiter] is a singleton: after a call the package variable
    holds the limiter returned and the environment is untouched, a second
    call returns the same limiter and changes nothing, and a limiter that
    exists already is returned as it is. *)
Theorem GetLimiter_singleton (g : ratelimit.Globals) :
  let '(l, g1) := ratelimit.GetLimiter g in
  ratelimit.instance g1 = Some l
  /\ ratelimit.environ g1 = ratelimit.environ g
  /\ ratelimit.GetLimiter g1 = (l, g1)
  /\ (forall l0, ratelimit.instance g = Some l0 -> l = l0 /\ g1 = g).
Proof.
  unfold ratelimit.GetLimiter. destruct g as [env [l0|]]; cbn.
  - repeat split; congruence.
  - repeat split; discriminate.
Qed.

Lemma initLimiters_lookup (env : ratelimit.Environ) (api : ratelimit.API) :
  let testing := String.eqb (ratelimit.GO_TESTING env) "1"
                 || ratelimit.isTestMode (ratelimit.Args env) in
  ratelimit.limiters (ratelimit.initLimiters env (ratelimit.mkLimiter ∅)) !! api
  = if decide (api = ratelimit.APIRentcast) then
      Some (rate_NewLimiter (if testing then ratelimit.rate_Inf else 10%float) 1)
    else if decide (api = ratelimit.APIAlphaVantage) then
      Some (rate_NewLimiter (if testing then ratelimit.rate_Inf else (1 / 12)%float) 1)
    else if decide (api = ratelimit.APIEtherscan) then
      Some (rate_NewLimiter (if testing then ratelimit.rate_Inf else 4%float) 1)
    else None.
Proof.
  cbv zeta. unfold ratelimit.initLimiters.
  destruct (_ || _); cbn; rewrite !lookup_insert, lookup_empty;
    repeat case_decide; congruence.
Qed.

(** X3: the limiter created on first use registers etherscan,
    alphavantage and rentcast and no other source; in test mode
    ([GO_TESTING] is 1, or [isTestMode]) every one of them is
    [rate.NewLimiter(rate.Inf, 1)], and otherwise their rates are 4, 1/12
    and 10 events per second, each with burst 1. *)
Theorem GetLimiter_first_use (env : ratelimit.Environ) (api : ratelimit.API) :
  let l := fst (ratelimit.GetLimiter (ratelimit.mkGlobals env None)) in
  (is_Some (ratelimit.limiters l !! api)
   <-> api = ratelimit.APIEtherscan \/ api = ratelimit.APIAlphaVantage
       \/ api = ratelimit.APIRentcast)
  /\ (ratelimit.GO_TESTING env = "1" \/ ratelimit.isTestMode (ratelimit.Args env) = true ->
      forall limiter, ratelimit.limiters l !! api = Some limiter ->
                      limiter = rate_NewLimiter ratelimit.rate_Inf 1)
  /\ (ratelimit.GO_TESTING env <> "1" -> ratelimit.isTestMode (ratelimit.Args env) = false ->
      ratelimit.limiters l !! ratelimit.APIEtherscan = Some (rate_NewLimiter 4%float 1)
      /\ ratelimit.limiters l !! ratelimit.APIAlphaVantage
         = Some (rate_NewLimiter (1 / 12)%float 1)
      /\ ratelimit.limiters l !! ratelimit.APIRentcast = Some (rate_NewLimiter 10%float 1)).
Proof.
  cbn. split; [| split].
  - rewrite initLimiters_lookup.
    repeat case_decide; subst; split; intros Hx;
      try (destruct Hx as [? Hx]; discriminate Hx); eauto;
      try (destruct Hx as [Hx|[Hx|Hx]]; congruence).
  - rewrite initLimiters_lookup. intros Htest limiter.
    assert (String.eqb (ratelimit.GO_TESTING env) "1"
            || ratelimit.isTestMode (ratelimit.Args env) = true) as ->.
    { apply orb_true_iff. destruct Htest as [->|Hargs]; [now left | now right]. }
    repeat case_decide; congruence.
  - intros Henv Hargs. rewrite !initLimiters_lookup. rewrite Hargs.
    destruct (String.eqb_spec (ratelimit.GO_TESTING env) "1"); [contradiction |].
    cbn. repeat split; reflexivity.
Qed.

Lemma Wait_lookup (l : ratelimit.Limiter) (ctx : context.Context)
    (api other : ratelimit.API) :
  let l1 := fst (fst (ratelimit.Wait l ctx api)) in
  (is_Some (ratelimit.limiters l1 !! other) <-> is_Some (ratelimit.limiters l !! other))
  /\ (other <> api -> ratelimit.limiters l1 !! other = ratelimit.limiters l !! other).
Proof.
  cbv zeta. unfold ratelimit.Wait.
  destruct (ratelimit.limiters l !! api) as [limiter|] eqn:Hl; [| done].
  destruct (rate_Wait limiter ctx) as [[lw d] e]. cbn.
  rewrite !lookup_insert.
  case_decide as Heq; [subst other; rewrite Hl | done].
  split; [| done]. split; eauto.
Qed.

(** X4: [Wait] and [Allow] on a source neither register nor drop a
    source, and they leave the limiter of every other source as it was. *)
Theorem Wait_Allow_frame (l : ratelimit.Limiter) (ctx : context.Context)
    (api other : ratelimit.API) :
  let l1 := fst (fst (ratelimit.Wait l ctx api)) in
  let l2 := fst (ratelimit.Allow l api) in
  (is_Some (ratelimit.limiters l1 !! other) <-> is_Some (ratelimit.limiters l !! other))
  /\ (is_Some (ratelimit.limiters l2 !! other) <-> is_Some (ratelimit.limiters l !! other))
  /\ (other <> api ->
      ratelimit.limiters l1 !! other = ratelimit.limiters l !! other
      /\ ratelimit.limiters l2 !! other = ratelimit.limiters l !! other).
Proof.
  cbv zeta. destruct (Wait_lookup l ctx api other) as [Hdom Hother].
  split; [exact Hdom |]. unfold ratelimit.Allow.
  destruct (ratelimit.limiters l !! api) as [limiter|] eqn:Hl.
  - destruct (rate_Allow limiter) as [la ok]. cbn.
    rewrite !lookup_insert.
    case_decide as Heq; [subst other; rewrite Hl | ].
    + split; [| done]. split; eauto.
    + split; [done |]. intros Hne. split; [now apply Hother | done].
  - cbn. split; [done |]. intros Hne. split; [now apply Hother | done].
Qed.

End LimiterFacts.

(** ** More on the retry policy and the classifier *)

(** X6: on a status of 400 or more the retry decision is the [Retryable]
    flag of the classified error, except at 408, which is retried although
    it is classified as a Client error that is not retryable. *)
Theorem retry_agrees_with_classifier (r : resty.Response) :
  400 <= resty.StatusCode r ->
  (resty.StatusCode r <> 408 ->
   fetcher.retryCondition r None
   = fetcher.Retryable (fetcher.ClassifyHTTPError (resty.StatusCode r)))
  /\ (resty.StatusCode r = 408 ->
      fetcher.retryCondition r None = true
      /\ fetcher.Retryable (fetcher.ClassifyHTTPError (resty.StatusCode r)) = false).
Proof.
  intros Hs. unfold fetcher.retryCondition, fetcher.ClassifyHTTPError. split.
  - intros H408.
    destruct (Z.eqb_spec (resty.StatusCode r) 429) as [->|H429]; [reflexivity |].
    destruct (Z.leb_spec 500 (resty.StatusCode r)); [reflexivity |].
    destruct (Z.eqb_spec (resty.StatusCode r) 408); [contradiction |].
    destruct (Z.leb_spec 400 (resty.StatusCode r)); [| lia].
    now destruct (_ && _).
  - intros ->. split; reflexivity.
Qed.

Lemma retry_agrees_with_classifier_witness :
  fetcher.retryCondition (examples.response 503) None
  = fetcher.Retryable (fetcher.ClassifyHTTPError 503).
Proof.
  refine (proj1 (retry_agrees_with_classifier (examples.response 503) _) _);
    cbv; discriminate.
Defined.

Section MoreAdapterFacts.
Context `{Libraries}.

Lemma toError_roundtrip (fe : fetcher.FetchError) :
  fetcher.errors_As_FetchError (fetcher.toError fe) = Some fe
  /\ fetcher.Error (fetcher.toError fe) = fetcher.FetchError_Error fe.
Proof. now destruct fe. Qed.

(** X7: when the limiter lets the call through and the response has a
    status outside 200..299, the quote adapter and the valuation adapter
    return 0 and an error from which [errors.As] recovers exactly
    [ClassifyHTTPError(status)], and whose message is the adapter's prefix
    followed by the message of that error; the valuation fetcher is left
    unchanged. *)
Theorem http_error_recoverable :
  (forall f ctx g g' resp decoded,
      ratelimit.getAndWait g ctx ratelimit.APIAlphaVantage = (g', None) ->
      resty.IsSuccess resp = false ->
      exists e,
        alphavantage.Fetch f ctx g (resty.Responded resp decoded) = ((0%float, Some e), g')
        /\ fetcher.errors_As_FetchError e
           = Some (fetcher.ClassifyHTTPError (resty.StatusCode resp))
        /\ fetcher.Error e
           = ("failed to fetch stock price for " +:+ alphavantage.ticker f +:+ ": ")
             +:+ fetcher.FetchError_Error (fetcher.ClassifyHTTPError (resty.StatusCode resp)))
  /\ (forall f ctx g g' resp decoded,
      ratelimit.getAndWait g ctx ratelimit.APIRentcast = (g', None) ->
      resty.IsSuccess resp = false ->
      exists e,
        rentcast.Fetch f ctx g (resty.Responded resp decoded) = ((0%float, Some e), f, g')
        /\ fetcher.errors_As_FetchError e
           = Some (fetcher.ClassifyHTTPError (resty.StatusCode resp))
        /\ fetcher.Error e
           = ("failed to fetch property valuation for "
                +:+ rentcast.Address (rentcast.params f) +:+ ": ")
             +:+ fetcher.FetchError_Error (fetcher.ClassifyHTTPError (resty.StatusCode resp))).
Proof.
  split; intros f ctx g g' resp decoded Hwait Hfail.
  - unfold alphavantage.Fetch. rewrite Hwait, Hfail. cbn [negb]. eexists.
    split; [reflexivity |].
    destruct (toError_roundtrip (fetcher.ClassifyHTTPError (resty.StatusCode resp)))
      as [Has Herr].
    split; [exact Has |]. cbn [fetcher.Error fetcher.fmt_Errorf_w]. now rewrite Herr.
  - unfold rentcast.Fetch. rewrite Hwait, Hfail. cbn [negb]. eexists.
    split; [reflexivity |].
    destruct (toError_roundtrip (fetcher.ClassifyHTTPError (resty.StatusCode resp)))
      as [Has Herr].
    split; [exact Has |]. cbn [fetcher.Error fetcher.fmt_Errorf_w]. now rewrite Herr.
Qed.

(** X8: when the wait on the rate limiter fails with [err], the quote
    adapter and the valuation adapter return 0 and a Timeout error that is
    retryable, has no status and has [err] as its cause, whatever the
    request would have come back with. *)
Theorem limiter_failure_is_timeout :
  (forall f ctx g g' err http,
      ratelimit.getAndWait g ctx ratelimit.APIAlphaVantage = (g', Some err) ->
      alphavantage.Fetch f ctx g http
      = ((0%float,
          Some (ptrFetchError fetcher.ErrorTypeTimeout true 0 "request timed out"
                  (Some err))), g'))
  /\ (forall f ctx g g' err http,
      ratelimit.getAndWait g ctx ratelimit.APIRentcast = (g', Some err) ->
      rentcast.Fetch f ctx g http
      = ((0%float,
          Some (ptrFetchError fetcher.ErrorTypeTimeout true 0 "request timed out"
                  (Some err))), f, g')).
Proof.
  split; intros f ctx g g' err http Hwait.
  - unfold alphavantage.Fetch. now rewrite Hwait.
  - unfold rentcast.Fetch. now rewrite Hwait.
Qed.

(** X9: when the limiter lets the call through and the request fails
    with [err], the quote adapter and the valuation adapter return 0 and a
    Network error that is retryable, has no status and has [err] as its
    cause. *)
Theorem transport_failure_is_network :
  (forall f ctx g g' err,
      ratelimit.getAndWait g ctx ratelimit.APIAlphaVantage = (g', None) ->
      alphavantage.Fetch f ctx g (resty.Failed err)
      = ((0%float,
          Some (ptrFetchError fetcher.ErrorTypeNetwork true 0 "network request failed"
                  (Some err))), g'))
  /\ (forall f ctx g g' err,
      ratelimit.getAndWait g ctx ratelimit.APIRentcast = (g', None) ->
      rentcast.Fetch f ctx g (resty.Failed err)
      = ((0%float,
          Some (ptrFetchError fetcher.ErrorTypeNetwork true 0 "network request failed"
                  (Some err))), f, g')).
Proof.
  split; intros f ctx g g' err Hwait.
  - unfold alphavantage.Fetch. now rewrite Hwait.
  - unfold rentcast.Fetch. now rewrite Hwait.
Qed.

(** X10: when the limiter lets the call through, the quote adapter
    returns [value] without an error exactly when the response has a
    status in 200..299, a body was decoded, its price field is not empty
    and [strconv.ParseFloat] turns it into [value] without an error. *)
Theorem quote_success_iff f ctx g g' http :
  ratelimit.getAndWait g ctx ratelimit.APIAlphaVantage = (g', None) ->
  forall value,
    alphavantage.Fetch f ctx g http = ((value, None), g')
    <-> exists resp result,
        http = resty.Responded resp (Some result)
        /\ resty.IsSuccess resp = true
        /\ alphavantage.Price (alphavantage.Global_Quote result) <> ""
        /\ strconv_ParseFloat (alphavantage.Price (alphavantage.Global_Quote result))
           = (value, None).
Proof.
  intros Hwait value. unfold alphavantage.Fetch. rewrite Hwait. split.
  - destruct http as [err|resp [result|]]; [discriminate | |].
    + cbn [default from_option id]. destruct (resty.IsSuccess resp) eqn:Hok; [| discriminate].
      cbn [negb].
      destruct (String.eqb_spec (alphavantage.Price (alphavantage.Global_Quote result)) "")
        as [|Hne]; [discriminate |].
      destruct (strconv_ParseFloat _) as [price [perr|]] eqn:Hparse; [discriminate |].
      intros [= ->]. now exists resp, result.
    + cbn. destruct (negb _); discriminate.
  - intros (resp & result & -> & Hok & Hne & Hparse).
    cbn [default from_option id]. rewrite Hok. cbn [negb].
    destruct (String.eqb_spec (alphavantage.Price (alphavantage.Global_Quote result)) "");
      [contradiction |].
    now rewrite Hparse.
Qed.

(** X11: when the limiter lets the call through, a [Fetch] of the
    valuation adapter never changes the parameters nor the key of the
    fetcher; it succeeds exactly when the response has a status in
    200..299 and a decoded price that does not compare equal to 0, and
    then it returns that price and [GetLastResponse] gives the decoded
    response; when it fails the fetcher is left as it was. *)
Theorem valuation_success_iff f ctx g g' http :
  ratelimit.getAndWait g ctx ratelimit.APIRentcast = (g', None) ->
  forall value err f1,
    rentcast.Fetch f ctx g http = ((value, err), f1, g') ->
    rentcast.params f1 = rentcast.params f
    /\ rentcast.Key f1 = rentcast.Key f
    /\ (err = None
        <-> exists resp result,
            http = resty.Responded resp (Some result)
            /\ resty.IsSuccess resp = true
            /\ (rentcast.Price result =? 0)%float = false
            /\ value = rentcast.Price result
            /\ rentcast.GetLastResponse f1 = Some result)
    /\ (err <> None -> f1 = f).
Proof.
  intros Hwait value err f1. unfold rentcast.Fetch. rewrite Hwait.
  destruct http as [terr|resp decoded].
  { intros [= <- <- <-]. repeat split; try done.
    intros (resp & result & Heq & _). discriminate. }
  cbv zeta. destruct (resty.IsSuccess resp) eqn:Hok; cbn [negb].
  2: { intros [= <- <- <-]. repeat split; try done.
       intros (resp' & result & [= <- _] & Hok' & _). congruence. }
  destruct (PrimFloat.eqb _ _) eqn:Hzero.
  { intros [= <- <- <-]. repeat split; try done.
    intros (resp' & result & [= <- ->] & _ & Hz & _). cbn in Hzero. congruence. }
  intros [= <- <- <-]. repeat split; try done.
  intros _. destruct decoded as [result|].
  - exists resp, result. repeat split; done.
  - cbn in Hzero. discriminate.
Qed.

End MoreAdapterFacts.

(** ** More on keys *)

(** What a byte of a normalised identifier can be. *)
Lemma lowerByte_token (c : ascii) :
  strings.isASCIIByte c = true ->
  c <> " "%char -> c <> ","%char ->
  let c' := strings.lowerByte c in
  c' <> " "%char /\ c' <> ","%char
  /\ strings.isUpperByte c' = false /\ strings.isASCIIByte c' = true.
Proof.
  intros Hascii Hsp Hco. cbv zeta. unfold strings.lowerByte.
  destruct (strings.isUpperByte c) eqn:Hup; [| done].
  unfold strings.isUpperByte in Hup. apply andb_prop in Hup as [Hlo Hhi].
  apply Nat.leb_le in Hlo, Hhi.
  assert (Hn : nat_of_ascii (ascii_of_nat (nat_of_ascii c + 32)) = (nat_of_ascii c + 32)%nat)
    by (apply nat_ascii_embedding; lia).
  repeat split.
  - intros Heq. rewrite Heq in Hn. change (nat_of_ascii " "%char) with 32%nat in Hn. lia.
  - intros Heq. rewrite Heq in Hn. change (nat_of_ascii ","%char) with 44%nat in Hn. lia.
  - unfold strings.isUpperByte. rewrite Hn. apply andb_false_iff. right.
    apply Nat.leb_gt. lia.
  - unfold strings.isASCIIByte. rewrite Hn. apply Nat.ltb_lt. lia.
Qed.

Lemma normalize_token (s : string) (c : ascii) :
  strings.isASCII s = true ->
  In c (list_ascii_of_string (units.normalize s)) ->
  c <> " "%char /\ c <> ","%char
  /\ strings.isUpperByte c = false /\ strings.isASCIIByte c = true.
Proof.
  induction s as [|x s IH]; [intros _ [] |].
  cbn [strings.isASCII units.normalize]. intros Hascii.
  apply andb_prop in Hascii as [Hx Hs]. unfold units.normalizeByte.
  destruct (Ascii.eqb_spec x " "%char) as [->|Hsp].
  { cbn. intros [<-|Hin]; [repeat split; discriminate | now apply IH]. }
  destruct (Ascii.eqb_spec x ","%char) as [->|Hco].
  { cbn. now apply IH. }
  cbn. intros [<-|Hin]; [now apply lowerByte_token | now apply IH].
Qed.

(** X12: for an address of ASCII bytes the key of a property unit is
    [fetcher:rentcast:] followed by a stub that holds no space, no comma
    and no upper-case letter, and only ASCII bytes. *)
Theorem Key_stub_is_token `{Libraries} (f : rentcast.PropertyFetcher) :
  strings.isASCII (rentcast.Address (rentcast.params f)) = true ->
  exists stub,
    rentcast.Key f = "fetcher:rentcast:" +:+ stub
    /\ forall c, In c (list_ascii_of_string stub) ->
         c <> " "%char /\ c <> ","%char
         /\ strings.isUpperByte c = false /\ strings.isASCIIByte c = true.
Proof.
  intros Hascii. exists (units.normalize (rentcast.Address (rentcast.params f))).
  split.
  - unfold rentcast.Key. cbv zeta.
    now rewrite addressStub_bytes, addressStub_normalize.
  - intros c. now apply normalize_token.
Qed.

Lemma Key_stub_is_token_witness :
  exists stub,
    @rentcast.Key golibs.libraries
      (@rentcast.NewPropertyFetcher golibs.libraries "test_key"
         (rentcast.mkPropertyParams "456 BROADWAY AVE, NEW YORK, NY 10001"
            "Single Family" 3 2%float 1878) "http://localhost")
    = "fetcher:rentcast:" +:+ stub
    /\ forall c, In c (list_ascii_of_string stub) ->
         c <> " "%char /\ c <> ","%char
         /\ strings.isUpperByte c = false /\ strings.isASCIIByte c = true.
Proof.
  apply (@Key_stub_is_token golibs.libraries
           (@rentcast.NewPropertyFetcher golibs.libraries "test_key"
              (rentcast.mkPropertyParams "456 BROADWAY AVE, NEW YORK, NY 10001"
                 "Single Family" 3 2%float 1878) "http://localhost")).
  reflexivity.
Defined.

(** ** More on the wallet adapter *)

Section WalletFacts.
Context `{Libraries}.

(** X13: when the price request of a wallet fetch fails, [Fetch] returns
    0 with the error of [fetchEthPrice] as it is, whatever the balance
    request would have come back with. *)
Theorem wallet_price_failure_first f ctx httpPrice v e :
  etherscan.fetchEthPrice f ctx httpPrice = (v, Some e) ->
  forall httpBalance, etherscan.Fetch f ctx httpPrice httpBalance = (0%float, Some e).
Proof.
  intros Hprice httpBalance. unfold etherscan.Fetch. now rewrite Hprice.
Qed.

(** X14: a wallet fetch returns [value] without an error exactly when
    both responses have a status in 200..299 and a decoded body, the price
    field is not empty and parses, the balance is not empty and is a
    decimal integer, and [value] is the conversion of that balance at that
    price. *)
Theorem wallet_success_iff f ctx httpPrice httpBalance value :
  etherscan.Fetch f ctx httpPrice httpBalance = (value, None)
  <-> exists respPrice priceResult respBalance balanceResult ethUSD wei,
      httpPrice = resty.Responded respPrice (Some priceResult)
      /\ resty.IsSuccess respPrice = true
      /\ etherscan.EthUSD (etherscan.ep_Result priceResult) <> ""
      /\ strconv_ParseFloat (etherscan.EthUSD (etherscan.ep_Result priceResult))
         = (ethUSD, None)
      /\ httpBalance = resty.Responded respBalance (Some balanceResult)
      /\ resty.IsSuccess respBalance = true
      /\ etherscan.Result balanceResult <> ""
      /\ big.Int_SetString (etherscan.Result balanceResult) = Some wei
      /\ value = etherscan.usdValue wei ethUSD.
Proof.
  unfold etherscan.Fetch, etherscan.fetchEthPrice. split.
  - destruct httpPrice as [err|respPrice [priceResult|]]; [discriminate | |].
    2: { cbn. destruct (negb _); discriminate. }
    cbn [default from_option id].
    destruct (resty.IsSuccess respPrice) eqn:HokP; [| discriminate]. cbn [negb].
    destruct (String.eqb_spec (etherscan.EthUSD (etherscan.ep_Result priceResult)) "")
      as [|HneP]; [discriminate |].
    destruct (strconv_ParseFloat _) as [ethUSD [perr|]] eqn:Hparse; [discriminate |].
    destruct httpBalance as [err|respBalance [balanceResult|]]; [discriminate | |].
    2: { cbn. destruct (negb _); discriminate. }
    cbn [default from_option id].
    destruct (resty.IsSuccess respBalance) eqn:HokB; [| discriminate]. cbn [negb].
    destruct (String.eqb_spec (etherscan.Result balanceResult) "") as [|HneB];
      [discriminate |].
    destruct (big.Int_SetString _) as [wei|] eqn:Hwei; [| discriminate].
    intros [= <-].
    exists respPrice, priceResult, respBalance, balanceResult, ethUSD, wei.
    repeat split; done.
  - intros (respPrice & priceResult & respBalance & balanceResult & ethUSD & wei
            & -> & HokP & HneP & Hparse & -> & HokB & HneB & Hwei & ->).
    cbn [default from_option id]. rewrite HokP, HokB. cbn [negb].
    destruct (String.eqb_spec (etherscan.EthUSD (etherscan.ep_Result priceResult)) "");
      [contradiction |].
    rewrite Hparse.
    destruct (String.eqb_spec (etherscan.Result balanceResult) ""); [contradiction |].
    now rewrite Hwei.
Qed.

End WalletFacts.

Lemma wallet_price_failure_first_witness :
  @etherscan.Fetch golibs.libraries examples.walletFetcher0x123 context.Background
    (resty.Responded (examples.response 500) None)
    (examples.balanceReply "1000000000000000000")
  = (0%float, Some (errorString "etherscan API returned status 500")).
Proof.
  apply (@wallet_price_failure_first golibs.libraries examples.walletFetcher0x123
           context.Background (resty.Responded (examples.response 500) None) 0%float).
  reflexivity.
Defined.

(** ** The adapters before and after the taxonomy *)

Section VersionFacts.
Context `{Libraries}.

(** X15: when the limiter lets the call through, the quote adapter with
    the error taxonomy and the one without return the same value on every
    reply, and one returns an error exactly when the other does. *)
Theorem quote_versions_agree f ctx g g' http :
  ratelimit.getAndWait g ctx ratelimit.APIAlphaVantage = (g', None) ->
  let '(value, err) := fst (alphavantage.Fetch f ctx g http) in
  let '(value0, err0) := alphavantage_plain.Fetch f ctx http in
  value = value0 /\ (err = None <-> err0 = None).
Proof.
  intros Hwait. unfold alphavantage.Fetch, alphavantage_plain.Fetch. rewrite Hwait.
  destruct http as [terr|resp decoded]; [done |]. cbv zeta.
  destruct (negb _); [done |].
  destruct (String.eqb _ ""); [done |].
  now destruct (strconv_ParseFloat _) as [price [perr|]].
Qed.

(** X16: when the limiter lets the call through, the valuation adapter
    with the error taxonomy and the one without return the same value on
    every reply, one returns an error exactly when the other does, and
    they leave the fetcher in the same state. *)
Theorem valuation_versions_agree f ctx g g' http :
  ratelimit.getAndWait g ctx ratelimit.APIRentcast = (g', None) ->
  let '((value, err), f1) := fst (rentcast.Fetch f ctx g http) in
  let '((value0, err0), f0) := rentcast_plain.Fetch f ctx http in
  value = value0 /\ (err = None <-> err0 = None) /\ f1 = f0.
Proof.
  intros Hwait. unfold rentcast.Fetch, rentcast_plain.Fetch. rewrite Hwait.
  destruct http as [terr|resp decoded]; [done |]. cbv zeta.
  destruct (negb _); [done |].
  now destruct (PrimFloat.eqb _ _).
Qed.

End VersionFacts.

(** ** The configuration *)

(** The required settings, with the names [Load] reports them under. *)
Lemma missingOf_filter (c : config.Config) :
  config.missingOf c
  = map fst
      (List.filter (fun nv => String.eqb (snd nv) "")
         [("ETHERSCAN_API_KEY", config.EtherscanAPIKey c);
          ("ALPHAVANTAGE_API_KEY", config.AlphavantageAPIKey c);
          ("RENTCAST_API_KEY", config.RentcastAPIKey c);
          ("GUIDELINE_EMAIL", config.GuidelineEmail c);
          ("GUIDELINE_PASSWORD", config.GuidelinePassword c)]).
Proof.
  unfold config.missingOf. cbn.
  destruct (String.eqb (config.EtherscanAPIKey c) ""),
           (String.eqb (config.AlphavantageAPIKey c) ""),
           (String.eqb (config.RentcastAPIKey c) ""),
           (String.eqb (config.GuidelineEmail c) ""),
           (String.eqb (config.GuidelinePassword c) ""); reflexivity.
Qed.

(** *** substrings *)

Lemma substring_0_app (a b : string) :
  String.substring 0 (String.length a) (a +:+ b) = a.
Proof.
  induction a as [|c a IH]; [now destruct b |].
  change (String c (String.substring 0 (String.length a) (a +:+ b)) = String c a).
  now rewrite IH.
Qed.

Lemma substring_skip (pre s : string) (n : nat) :
  String.substring (String.length pre) n (pre +:+ s) = String.substring 0 n s.
Proof. induction pre as [|c pre IH]; [done | exact IH]. Qed.

Lemma length_append (a b : string) :
  String.length (a +:+ b) = (String.length a + String.length b)%nat.
Proof.
  induction a as [|c a IH]; [done |].
  change (S (String.length (a +:+ b)) = S (String.length a + String.length b)).
  now rewrite IH.
Qed.

Lemma append_assoc (a b c : string) : (a +:+ b) +:+ c = a +:+ b +:+ c.
Proof.
  induction a as [|x a IH]; [done |].
  change (String x ((a +:+ b) +:+ c) = String x (a +:+ b +:+ c)). now rewrite IH.
Qed.

Lemma substring_0_prefix (n : nat) (s : string) :
  exists post, s = String.substring 0 n s +:+ post.
Proof.
  revert s. induction n as [|n IH]; intros s.
  - exists s. now destruct s.
  - destruct s as [|c s]; [now exists "" |].
    destruct (IH s) as (post & Hs). exists post.
    change (String c s = String c (String.substring 0 n s +:+ post)). now f_equal.
Qed.

(** [substring] cuts a piece out of its argument. *)
Lemma substring_inside (i n : nat) (s : string) :
  exists pre post, s = pre +:+ String.substring i n s +:+ post.
Proof.
  revert s. induction i as [|i IH]; intros s.
  - destruct (substring_0_prefix n s) as (post & Hs). now exists "", post.
  - destruct s as [|c s]; [now exists "", "" |].
    destruct (IH s) as (pre & post & Hs).
    exists (String c pre), post.
    change (String c s = String c (pre +:+ String.substring i n s +:+ post)).
    now f_equal.
Qed.

Lemma append_empty_r (s : string) : s +:+ "" = s.
Proof.
  induction s as [|c t IH]; [done |].
  change (String c (t +:+ "") = String c t). now f_equal.
Qed.

(** The loop of [contains] finds an offset at which [substr] starts, if
    there is one among those it tries. *)
Lemma containsFrom_spec (n i : nat) (s substr : string) :
  config.containsFrom n i s substr = true
  <-> exists j, (i <= j < i + n)%nat
                /\ String.substring j (String.length substr) s = substr.
Proof.
  revert i. induction n as [|n IH]; intros i; cbn [config.containsFrom].
  - split; [discriminate | intros (j & Hj & _); lia].
  - destruct (String.eqb_spec (String.substring i (String.length substr) s) substr)
      as [Heq|Hne].
    + split; [| done]. intros _. exists i. split; [lia | done].
    + rewrite IH. split; intros (j & Hj & Hsub).
      * exists j. split; [lia | done].
      * exists j. split; [| done].
        destruct (Nat.eq_dec j i) as [->|]; [contradiction | lia].
Qed.

Lemma contains_intro (pre substr post : string) :
  config.contains (pre +:+ substr +:+ post) substr = true.
Proof.
  unfold config.contains.
  assert (Hlen : (String.length substr
                  <= String.length (pre +:+ substr +:+ post))%nat)
    by (rewrite !length_append; lia).
  apply andb_true_intro. split; [now apply Nat.leb_le |].
  apply orb_true_iff. right. apply containsFrom_spec.
  exists (String.length pre). split.
  - rewrite !length_append. lia.
  - now rewrite substring_skip, substring_0_app.
Qed.

(** X18: the helper [contains] of the configuration tests answers [true]
    exactly when [substr] occurs in [s]. *)
Theorem contains_spec (s substr : string) :
  config.contains s substr = true
  <-> exists pre post, s = pre +:+ substr +:+ post.
Proof.
  split; [| intros (pre & post & ->); apply contains_intro].
  unfold config.contains.
  intros Hb. apply andb_prop in Hb as [Hlen Hb].
  apply orb_prop in Hb as [Hb|Hloop]; [apply orb_prop in Hb as [Heq|Hempty] |].
  - apply String.eqb_eq in Heq as ->. exists "", "". now rewrite append_empty_r.
  - apply Nat.eqb_eq in Hempty. destruct substr; [| discriminate]. now exists "", s.
  - apply containsFrom_spec in Hloop as (j & _ & Hsub).
    destruct (substring_inside j (String.length substr) s) as (pre & post & Hs).
    rewrite Hsub in Hs. now exists pre, post.
Qed.

(** *** [Load] *)

Lemma Join_contains (elems : list string) (sep name : string) :
  In name elems -> exists pre post, config.Join elems sep = pre +:+ name +:+ post.
Proof.
  induction elems as [|e elems IH]; [intros [] |].
  intros [->|Hin].
  - destruct elems as [|e' elems].
    + exists "", "". cbn. now rewrite append_empty_r.
    + exists "", (sep +:+ config.Join (e' :: elems) sep). reflexivity.
  - destruct (IH Hin) as (pre & post & Hj).
    destruct elems as [|e' elems]; [destruct Hin |].
    exists (e +:+ sep +:+ pre), post.
    change (config.Join (e :: e' :: elems) sep)
      with (e +:+ sep +:+ config.Join (e' :: elems) sep).
    now rewrite Hj, !append_assoc.
Qed.

(** X19: once the configuration is unmarshalled without error, [Load]
    returns it, unchanged, exactly when the three API keys and the two
    Guideline credentials are all non-empty; when one of them is empty it
    returns no configuration and an error whose message contains
    "missing required configuration" and the name of the variable. *)
Theorem Load_validates (c : config.Config) :
  let required :=
    [("ETHERSCAN_API_KEY", config.EtherscanAPIKey c);
     ("ALPHAVANTAGE_API_KEY", config.AlphavantageAPIKey c);
     ("RENTCAST_API_KEY", config.RentcastAPIKey c);
     ("GUIDELINE_EMAIL", config.GuidelineEmail c);
     ("GUIDELINE_PASSWORD", config.GuidelinePassword c)] in
  (config.Load c None = (Some c, None)
   <-> forall name value, In (name, value) required -> value <> "")
  /\ (forall name, In (name, "") required ->
      exists message,
        config.Load c None = (None, Some (errorString message))
        /\ config.contains message "missing required configuration" = true
        /\ config.contains message name = true).
Proof.
  cbv zeta. unfold config.Load. rewrite missingOf_filter.
  set (required := [("ETHERSCAN_API_KEY", config.EtherscanAPIKey c); _; _; _; _]).
  set (missing := List.filter _ required).
  split.
  - split.
    + intros Hload name value Hin ->.
      assert (Hm : In (name, "") missing) by (apply filter_In; split; done).
      destruct missing; [destruct Hm | discriminate].
    + intros Hall.
      assert (Hnil : missing = []).
      { destruct missing as [|[name value] rest] eqn:Hm; [done |].
        assert (Hin : In (name, value) missing) by (rewrite Hm; now left).
        apply filter_In in Hin as [Hin Hv]. apply String.eqb_eq in Hv. cbn in Hv.
        now destruct (Hall name value Hin). }
      now rewrite Hnil.
  - intros name Hin.
    assert (Hm : In (name, "") missing) by (apply filter_In; split; done).
    assert (Hname : In name (map fst missing)) by (now apply (in_map fst) in Hm).
    destruct (map fst missing) as [|m ms] eqn:Hmap; [destruct Hname |].
    cbn [length]. eexists. split; [reflexivity |]. split.
    + apply (contains_intro "" "missing required configuration"
               (": " +:+ config.Join (m :: ms) ", ")).
    + destruct (Join_contains (m :: ms) ", " name Hname) as (pre & post & ->).
      rewrite <- (append_assoc "missing required configuration: " pre).
      apply contains_intro.
Qed.

(** ** The fetchers of [main] *)

Lemma fold_left_append {A B : Type} (g : A -> B) (l : list A) (acc : list B) :
  fold_left (fun acc x => (acc ++ [g x])%list) l acc = (acc ++ map g l)%list.
Proof.
  revert acc. induction l as [|x l IH]; intros acc; cbn.
  - now rewrite app_nil_r.
  - rewrite IH, <- app_assoc. reflexivity.
Qed.

Section MainFacts.
Context `{Libraries}.

Lemma buildFetchers_maps (cfg : config.Config) :
  main_.buildFetchers cfg
  = (map (fun wallet =>
            units.Wallet (etherscan.NewWalletFetcher (config.EtherscanAPIKey cfg) wallet
                            (config.EtherscanBaseURL cfg)))
         (config.EthereumWallets cfg)
     ++ map (fun symbol =>
               units.Quote (alphavantage.NewStockFetcher (config.AlphavantageAPIKey cfg)
                              symbol (config.AlphavantageBaseURL cfg)))
            (config.StockSymbols cfg)
     ++ map (fun prop =>
               units.Valuation
                 (rentcast.NewPropertyFetcher (config.RentcastAPIKey cfg)
                    (rentcast.mkPropertyParams (config.Address prop)
                       (config.PropertyType prop) (config.Bedrooms prop)
                       (config.Bathrooms prop) (config.SquareFootage prop))
                    (config.RentcastBaseURL cfg)))
            (config.Properties cfg))%list.
Proof.
  unfold main_.buildFetchers. cbv zeta.
  rewrite (fold_left_append
             (fun wallet => units.Wallet (etherscan.NewWalletFetcher _ wallet _))).
  rewrite (fold_left_append
             (fun symbol => units.Quote (alphavantage.NewStockFetcher _ symbol _))).
  rewrite (fold_left_append
             (fun prop => units.Valuation (rentcast.NewPropertyFetcher _ _ _))).
  cbn [app]. now rewrite <- app_assoc.
Qed.

(** X20: the fetchers [main] builds are one per wallet, then one per
    stock symbol, then one per property, in the order of the
    configuration: their keys are the etherscan keys of the wallets, the
    alphavantage keys of the symbols and the rentcast keys of the
    addresses; there is none exactly when the three lists are empty. *)
Theorem buildFetchers_keys (cfg : config.Config) :
  map units.Key (main_.buildFetchers cfg)
  = (map (fun wallet => "fetcher:etherscan:" +:+ wallet) (config.EthereumWallets cfg)
     ++ map (fun symbol => "fetcher:alphavantage:" +:+ symbol) (config.StockSymbols cfg)
     ++ map (fun prop =>
               "fetcher:rentcast:"
               +:+ strings.ReplaceAll
                     (strings.ToLower unicode_ToLower
                        (strings.ReplaceAll (config.Address prop) " " "_")) "," "")
            (config.Properties cfg))%list
  /\ length (main_.buildFetchers cfg)
     = (length (config.EthereumWallets cfg) + length (config.StockSymbols cfg)
        + length (config.Properties cfg))%nat
  /\ (main_.buildFetchers cfg = []
      <-> config.EthereumWallets cfg = [] /\ config.StockSymbols cfg = []
          /\ config.Properties cfg = []).
Proof.
  rewrite buildFetchers_maps. split; [| split].
  - rewrite !map_app, !map_map. reflexivity.
  - rewrite !length_app, !List.length_map. lia.
  - destruct (config.EthereumWallets cfg), (config.StockSymbols cfg),
      (config.Properties cfg); cbn; split; try done; intros (? & ? & ?); done.
Qed.

End MainFacts.

(** ** More on the coordinator *)

Section MoreCoordinatorFacts.
Context `{Libraries} (c : coordinator.Coordinator) (ctx : context.Context).
Import coordinator.

Lemma alive_zero_exited (ws : list Worker) :
  sum_list_with alive ws = 0%nat -> Forall (fun w => w = WExited) ws.
Proof.
  induction ws as [|w ws IH]; [constructor |].
  cbn [sum_list_with]. intros Hsum. constructor.
  - destruct w; cbn in Hsum; [lia | lia | lia | done].
  - apply IH. lia.
Qed.

(** Every fetcher is launched or still to launch. *)
Lemma launched_count (s : State) :
  reachable c ctx s ->
  (length (workers s) + length (unlaunched c (main s)) = length (fetchers c))%nat.
Proof.
  induction 1 as [|a s s' Hreach IH Hstep]; [done |].
  unfold step in Hstep. destruct (panicked s); [discriminate |].
  destruct a as [|i|].
  - unfold stepMain in Hstep.
    destruct (main s) as [|[|f rest]| |e] eqn:Hmain; cbn in IH.
    + destruct (_ =? _) eqn:Hlen; injection Hstep as <-; cbn; [| done].
      apply Z.eqb_eq in Hlen. lia.
    + injection Hstep as <-. cbn. lia.
    + injection Hstep as <-. cbn. rewrite length_app. cbn. lia.
    + destruct (buf s); [destruct (closed s); [| discriminate] |];
        injection Hstep as <-; cbn; lia.
    + discriminate.
  - unfold stepWorker in Hstep.
    destruct (workers s !! i) as [[ft|r| |]|]; try discriminate.
    + injection Hstep as <-. cbn. now rewrite length_insert.
    + destruct (closed s); [injection Hstep as <-; done |].
      destruct (_ <? _); [| discriminate].
      injection Hstep as <-. cbn. now rewrite length_insert.
    + destruct (_ <? _); injection Hstep as <-; cbn; [done |].
      now rewrite length_insert.
  - unfold stepCloser in Hstep.
    destruct (closer s); try discriminate.
    + destruct (_ =? _); [| discriminate]. now injection Hstep as <-.
    + now injection Hstep as <-.
Qed.

(** X23: in every state of [Run] the channel holds no more results than
    its capacity, and a worker that is about to send finds the channel
    open and not full: a send never blocks. *)
Theorem channel_has_room (s : State) :
  reachable c ctx s ->
  Z.of_nat (length (buf s)) <= cap s
  /\ forall i r, workers s !! i = Some (WSend r) ->
       closed s = false /\ Z.of_nat (length (buf s)) < cap s.
Proof.
  intros Hreach. pose proof (reachable_Inv c ctx s Hreach) as HI. split.
  - destruct (main s) eqn:Hmain;
      [rewrite (inv_check _ _ _ HI Hmain); done | | |].
    all: rewrite (inv_cap _ _ _ HI) by congruence.
    all: pose proof (Permutation_length (inv_lines _ _ _ HI)) as Hl; unfold expected in Hl.
    all: repeat (rewrite length_app in Hl || rewrite List.length_map in Hl); lia.
  - intros i r Hw. split; [| now apply (send_room c ctx s i r)].
    destruct (closed s) eqn:Hclosed; [exfalso | done].
    apply (inv_closed _ _ _ HI) in Hclosed.
    pose proof (inv_waited _ _ _ HI (or_intror Hclosed)) as Hwg.
    pose proof (worker_counted c ctx s i _ HI Hw eq_refl). lia.
Qed.

(** X24: in every state of [Run] in which the channel is closed, one
    worker per fetcher was launched, every worker has exited and the
    counter of the [WaitGroup] is 0. *)
Theorem closed_after_workers (s : State) :
  reachable c ctx s -> closed s = true ->
  length (workers s) = length (fetchers c)
  /\ Forall (fun w => w = WExited) (workers s)
  /\ wg s = 0.
Proof.
  intros Hreach Hclosed. pose proof (reachable_Inv c ctx s Hreach) as HI.
  apply (inv_closed _ _ _ HI) in Hclosed.
  pose proof (inv_waited _ _ _ HI (or_intror Hclosed)) as Hwg.
  split; [| split; [| done]].
  - pose proof (launched_count s Hreach) as Hcount.
    assert (Hpast : pastLoop (main s) = true).
    { destruct (pastLoop (main s)) eqn:Hp; [done |].
      apply (inv_closer _ _ _ HI) in Hp. congruence. }
    destruct (main s) as [| | |[e|]]; try discriminate; cbn in Hcount; lia.
  - apply alive_zero_exited. rewrite (inv_wg _ _ _ HI) in Hwg. lia.
Qed.

Lemma exec_measure (sched : list Action) (s s' : State) :
  Inv c ctx s -> exec c ctx sched s = Some s' ->
  (length sched + measure c s' <= measure c s)%nat.
Proof.
  revert s. induction sched as [|a sched IH]; intros s HI; cbn.
  - intros [= <-]. lia.
  - destruct (step c ctx a s) as [s1|] eqn:Hstep; [| discriminate].
    destruct (step_Inv c ctx a s s1 HI Hstep) as [HI1 Hlt].
    intros Hexec. specialize (IH s1 HI1 Hexec). lia.
Qed.

(** X25: a schedule that [Run] can follow has at most 5 n + 5 steps for
    n fetchers. *)
Theorem Run_step_bound (sched : list Action) (s : State) :
  exec c ctx sched init = Some s ->
  (length sched <= 5 * length (fetchers c) + 5)%nat.
Proof.
  intros Hexec. pose proof (exec_measure sched init s (Inv_init c ctx) Hexec) as Hm.
  unfold measure in Hm at 2. cbn in Hm. lia.
Qed.

End MoreCoordinatorFacts.

(** X26: with two fetchers [Run] can print the two outcomes in either
    order: the lines come in the order of arrival, which the scheduler
    decides. *)
Theorem Run_order_unspecified `{Libraries} (f1 f2 : fetcher.Fetcher)
    (ctx : context.Context) :
  let c := coordinator.New [f1; f2] in
  let line1 := coordinator.line (coordinator.outcome ctx f1) in
  let line2 := coordinator.line (coordinator.outcome ctx f2) in
  (exists sched s,
      coordinator.exec c ctx sched coordinator.init = Some s
      /\ coordinator.returns s None [line1; line2])
  /\ (exists sched s,
      coordinator.exec c ctx sched coordinator.init = Some s
      /\ coordinator.returns s None [line2; line1]).
Proof.
  cbv zeta. split.
  - exists [coordinator.AMain; coordinator.AMain; coordinator.AMain; coordinator.AMain;
            coordinator.AWorker 0; coordinator.AWorker 0; coordinator.AWorker 0;
            coordinator.AWorker 1; coordinator.AWorker 1; coordinator.AWorker 1;
            coordinator.ACloser; coordinator.ACloser;
            coordinator.AMain; coordinator.AMain; coordinator.AMain].
    eexists. split; [vm_compute; reflexivity |]. repeat split.
  - exists [coordinator.AMain; coordinator.AMain; coordinator.AMain; coordinator.AMain;
            coordinator.AWorker 1; coordinator.AWorker 1; coordinator.AWorker 1;
            coordinator.AWorker 0; coordinator.AWorker 0; coordinator.AWorker 0;
            coordinator.ACloser; coordinator.ACloser;
            coordinator.AMain; coordinator.AMain; coordinator.AMain].
    eexists. split; [vm_compute; reflexivity |]. repeat split.
Qed.

Section MainRun.
Context `{Libraries}.

(** X21: [Run] on the fetchers [main] builds, however the units behave:
    once it has returned, it has returned an error exactly when the
    configuration lists no wallet, no symbol and no property, and it has
    printed as many lines as the configuration lists items. *)
Theorem main_Run_outcomes (cfg : config.Config)
    (fetch : units.FetchUnit -> context.Context -> float64 * option error)
    (ctx : context.Context) (s : coordinator.State) (err : option error)
    (out : list string) :
  let c := coordinator.New (map (main_.asFetcher fetch) (main_.buildFetchers cfg)) in
  coordinator.reachable c ctx s -> coordinator.returns s err out ->
  (err <> None
   <-> config.EthereumWallets cfg = [] /\ config.StockSymbols cfg = []
       /\ config.Properties cfg = [])
  /\ length out
     = (length (config.EthereumWallets cfg) + length (config.StockSymbols cfg)
        + length (config.Properties cfg))%nat.
Proof.
  cbv zeta. intros Hreach (Hmain & <- & _).
  apply reachable_Inv in Hreach.
  destruct (Inv_returned _ ctx s err Hreach Hmain) as [Hsome Hnone].
  cbn [coordinator.fetchers coordinator.New] in Hsome, Hnone.
  pose proof (buildFetchers_maps cfg) as Hmaps.
  destruct (main_.buildFetchers cfg) as [|u us] eqn:Hbuild.
  - destruct (Hnone eq_refl) as (-> & -> & _).
    symmetry in Hmaps. apply app_eq_nil in Hmaps as [Hw Hrest].
    apply app_eq_nil in Hrest as [Hs Hp].
    apply map_eq_nil in Hw, Hs, Hp. rewrite Hw, Hs, Hp. now split.
  - destruct (Hsome ltac:(discriminate)) as [-> Hperm]. split.
    + split; [done |]. intros (Hw & Hs & Hp). rewrite Hw, Hs, Hp in Hmaps. discriminate.
    + rewrite Hperm. unfold coordinator.expected. cbn [coordinator.fetchers coordinator.New].
      rewrite !List.length_map. rewrite Hmaps.
      rewrite !length_app, !List.length_map. lia.
Qed.

End MainRun.

(** ** The limiter registry across fetches, and the clients *)

Section RegistryFacts.
Context `{Libraries}.

Lemma getAndWait_registry (g : ratelimit.Globals) (ctx : context.Context)
    (api : ratelimit.API) :
  let g1 := fst (ratelimit.getAndWait g ctx api) in
  ratelimit.environ g1 = ratelimit.environ g
  /\ exists l1, ratelimit.instance g1 = Some l1
       /\ forall other,
            is_Some (ratelimit.limiters l1 !! other)
            <-> is_Some (ratelimit.limiters (fst (ratelimit.GetLimiter g)) !! other).
Proof.
  cbv zeta. unfold ratelimit.getAndWait.
  destruct (ratelimit.GetLimiter g) as [l g0] eqn:Hget.
  pose proof (Wait_lookup l ctx api) as Hframe.
  destruct (ratelimit.Wait l ctx api) as [[l1 blocked] err]. cbn in *.
  split.
  - unfold ratelimit.GetLimiter in Hget.
    destruct (ratelimit.instance g); injection Hget as <- <-; reflexivity.
  - exists l1. split; [reflexivity |]. intros other. apply (Hframe other).
Qed.

(** X5: a [Fetch] of the quote adapter or of the valuation adapter,
    whatever its outcome, leaves the limiter singleton in place: the
    package variable is set afterwards, the environment is untouched, and
    the sources registered are those [GetLimiter] gave before the call. *)
Theorem Fetch_keeps_registry :
  (forall f ctx g http,
      let g1 := snd (alphavantage.Fetch f ctx g http) in
      ratelimit.environ g1 = ratelimit.environ g
      /\ exists l1, ratelimit.instance g1 = Some l1
           /\ forall other,
                is_Some (ratelimit.limiters l1 !! other)
                <-> is_Some (ratelimit.limiters (fst (ratelimit.GetLimiter g)) !! other))
  /\ (forall f ctx g http,
      let g1 := snd (rentcast.Fetch f ctx g http) in
      ratelimit.environ g1 = ratelimit.environ g
      /\ exists l1, ratelimit.instance g1 = Some l1
           /\ forall other,
                is_Some (ratelimit.limiters l1 !! other)
                <-> is_Some (ratelimit.limiters (fst (ratelimit.GetLimiter g)) !! other)).
Proof.
  split; intros f ctx g http; cbv zeta.
  - pose proof (getAndWait_registry g ctx ratelimit.APIAlphaVantage) as Hreg.
    unfold alphavantage.Fetch.
    destruct (ratelimit.getAndWait g ctx ratelimit.APIAlphaVantage) as [g1 [werr|]];
      [exact Hreg |].
    destruct http as [err|resp decoded]; [exact Hreg |]. cbv zeta.
    destruct (negb _); [exact Hreg |]. destruct (String.eqb _ ""); [exact Hreg |].
    destruct (strconv_ParseFloat _) as [price [perr|]]; exact Hreg.
  - pose proof (getAndWait_registry g ctx ratelimit.APIRentcast) as Hreg.
    unfold rentcast.Fetch.
    destruct (ratelimit.getAndWait g ctx ratelimit.APIRentcast) as [g1 [werr|]];
      [exact Hreg |].
    destruct http as [err|resp decoded]; [exact Hreg |]. cbv zeta.
    destruct (negb _); [exact Hreg |]. destruct (PrimFloat.eqb _ _); exact Hreg.
Qed.

(** X17: the clients of the three constructors have the base URL given
    and send [Accept: application/json]; the property client also sends
    the API key as [X-Api-Key]; the stock and the property client retry 3
    times and decide last with [retryCondition], while the wallet client
    keeps the retry settings of [resty.New()]. *)
Theorem constructors_configure_client (apiKey identifier baseURL : string)
    (params : rentcast.PropertyParams) :
  let stock := alphavantage.client (alphavantage.NewStockFetcher apiKey identifier baseURL) in
  let property := rentcast.client (rentcast.NewPropertyFetcher apiKey params baseURL) in
  let wallet := etherscan.client (etherscan.NewWalletFetcher apiKey identifier baseURL) in
  (resty.BaseURL stock = baseURL /\ resty.BaseURL property = baseURL
   /\ resty.BaseURL wallet = baseURL)
  /\ (resty.Header stock !! "Accept" = Some "application/json"
      /\ resty.Header property !! "Accept" = Some "application/json"
      /\ resty.Header wallet !! "Accept" = Some "application/json")
  /\ resty.Header property !! "X-Api-Key" = Some apiKey
  /\ (resty.RetryCount stock = 3 /\ resty.RetryCount property = 3
      /\ resty.RetryCount wallet = resty.RetryCount resty_New)
  /\ (last (resty.RetryConditions stock) = Some fetcher.retryCondition
      /\ last (resty.RetryConditions property) = Some fetcher.retryCondition
      /\ resty.RetryConditions wallet = resty.RetryConditions resty_New).
Proof.
  cbv zeta. cbn. rewrite !lookup_insert.
  repeat case_decide; try congruence.
  rewrite !last_snoc. repeat split; reflexivity.
Qed.

End RegistryFacts.

(** ** The further properties at work *)

Lemma http_error_recoverable_witness :
  exists e,
    @alphavantage.Fetch golibs.libraries
      (@alphavantage.NewStockFetcher golibs.libraries "test_key" "AAPL" "http://localhost")
      context.Background golibs.testProcess
      (resty.Responded (examples.response 404) None)
    = ((0%float, Some e),
       fst (@ratelimit.getAndWait golibs.libraries golibs.testProcess
              context.Background ratelimit.APIAlphaVantage))
    /\ fetcher.errors_As_FetchError e = Some (fetcher.ClassifyHTTPError 404)
    /\ fetcher.Error e
       = "failed to fetch stock price for AAPL: "
         +:+ "client error (status 404): client error: HTTP 404".
Proof.
  apply (proj1 (@http_error_recoverable golibs.libraries)); reflexivity.
Defined.

Lemma limiter_failure_is_timeout_witness :
  fst (@alphavantage.Fetch golibs.libraries
         (@alphavantage.NewStockFetcher golibs.libraries "test_key" "AAPL" "http://localhost")
         (context.mkContext (Some context.Canceled)) golibs.testProcess
         (resty.Responded (examples.response 200)
            (Some (alphavantage.decode (examples.quoteBody "178.23")))))
  = (0%float,
     Some (ptrFetchError fetcher.ErrorTypeTimeout true 0 "request timed out"
             (Some context.Canceled))).
Proof.
  rewrite (proj1 (@limiter_failure_is_timeout golibs.libraries) _
             (context.mkContext (Some context.Canceled)) golibs.testProcess
             (fst (@ratelimit.getAndWait golibs.libraries golibs.testProcess
                     (context.mkContext (Some context.Canceled))
                     ratelimit.APIAlphaVantage))
             context.Canceled _ eq_refl).
  reflexivity.
Defined.

Lemma transport_failure_is_network_witness :
  fst (@alphavantage.Fetch golibs.libraries
         (@alphavantage.NewStockFetcher golibs.libraries "test_key" "AAPL" "http://localhost")
         context.Background golibs.testProcess
         (resty.Failed (errorString "connection refused")))
  = (0%float,
     Some (ptrFetchError fetcher.ErrorTypeNetwork true 0 "network request failed"
             (Some (errorString "connection refused")))).
Proof.
  rewrite (proj1 (@transport_failure_is_network golibs.libraries) _
             context.Background golibs.testProcess
             (fst (@ratelimit.getAndWait golibs.libraries golibs.testProcess
                     context.Background ratelimit.APIAlphaVantage))
             (errorString "connection refused") eq_refl).
  reflexivity.
Defined.

Lemma quote_success_iff_witness :
  exists resp result,
    resty.Responded (examples.response 200)
      (Some (alphavantage.decode (examples.quoteBody "178.23")))
    = resty.Responded resp (Some result)
    /\ resty.IsSuccess resp = true
    /\ alphavantage.Price (alphavantage.Global_Quote result) <> ""
    /\ golibs.ParseFloat (alphavantage.Price (alphavantage.Global_Quote result))
       = (examples.f178_23, None).
Proof.
  apply (@quote_success_iff golibs.libraries
           (@alphavantage.NewStockFetcher golibs.libraries "test_key" "AAPL"
              "http://localhost")
           context.Background golibs.testProcess
           (fst (@ratelimit.getAndWait golibs.libraries golibs.testProcess
                   context.Background ratelimit.APIAlphaVantage))
           _ eq_refl examples.f178_23).
  reflexivity.
Defined.

Lemma valuation_success_iff_witness :
  let f := @rentcast.NewPropertyFetcher golibs.libraries "test_key"
             (rentcast.mkPropertyParams "123 Main St" "" 0 0%float 0) "http://localhost" in
  let result := rentcast.decode
                  (rentcast.mkBody (Some 300000%float) (Some 280000%float)
                     (Some 320000%float) None None) in
  let f1 := rentcast.mkPropertyFetcher (rentcast.apiKey f) (rentcast.params f)
              (rentcast.client f) (Some result) in
  rentcast.GetLastResponse f = None
  /\ rentcast.params f1 = rentcast.params f
  /\ @rentcast.Key golibs.libraries f1 = @rentcast.Key golibs.libraries f
  /\ (@None error = None
      <-> exists resp result',
          resty.Responded (examples.response 200) (Some result)
          = resty.Responded resp (Some result')
          /\ resty.IsSuccess resp = true
          /\ (rentcast.Price result' =? 0)%float = false
          /\ 300000%float = rentcast.Price result'
          /\ rentcast.GetLastResponse f1 = Some result')
  /\ (@None error <> None -> f1 = f).
Proof.
  cbv zeta. split; [reflexivity |].
  apply (@valuation_success_iff golibs.libraries
           (@rentcast.NewPropertyFetcher golibs.libraries "test_key"
              (rentcast.mkPropertyParams "123 Main St" "" 0 0%float 0) "http://localhost")
           context.Background golibs.testProcess
           (fst (@ratelimit.getAndWait golibs.libraries golibs.testProcess
                   context.Background ratelimit.APIRentcast))
           (resty.Responded (examples.response 200)
              (Some (rentcast.decode
                       (rentcast.mkBody (Some 300000%float) (Some 280000%float)
                          (Some 320000%float) None None))))
           eq_refl 300000%float None).
  reflexivity.
Defined.

Lemma quote_versions_agree_witness :
  let f := @alphavantage.NewStockFetcher golibs.libraries "test_key" "AAPL"
             "http://localhost" in
  let http := resty.Responded (examples.response 200)
                (Some (alphavantage.decode (examples.quoteBody "invalid_number"))) in
  let '(value, err) :=
    fst (@alphavantage.Fetch golibs.libraries f context.Background golibs.testProcess http) in
  let '(value0, err0) :=
    @alphavantage_plain.Fetch golibs.libraries f context.Background http in
  value = value0 /\ (err = None <-> err0 = None).
Proof.
  cbv zeta.
  apply (@quote_versions_agree golibs.libraries
           (@alphavantage.NewStockFetcher golibs.libraries "test_key" "AAPL"
              "http://localhost")
           context.Background golibs.testProcess
           (fst (@ratelimit.getAndWait golibs.libraries golibs.testProcess
                   context.Background ratelimit.APIAlphaVantage))
           (resty.Responded (examples.response 200)
              (Some (alphavantage.decode (examples.quoteBody "invalid_number"))))
           eq_refl).
Defined.

Lemma valuation_versions_agree_witness :
  let f := @rentcast.NewPropertyFetcher golibs.libraries "test_key"
             (rentcast.mkPropertyParams "123 Main St" "" 0 0%float 0) "http://localhost" in
  let http := resty.Responded (examples.response 200)
                (Some (rentcast.decode
                         (rentcast.mkBody (Some 300000%float) None None None None))) in
  let '((value, err), f1) :=
    fst (@rentcast.Fetch golibs.libraries f context.Background golibs.testProcess http) in
  let '((value0, err0), f0) :=
    rentcast_plain.Fetch f context.Background http in
  value = value0 /\ (err = None <-> err0 = None) /\ f1 = f0.
Proof.
  cbv zeta.
  apply (@valuation_versions_agree golibs.libraries
           (@rentcast.NewPropertyFetcher golibs.libraries "test_key"
              (rentcast.mkPropertyParams "123 Main St" "" 0 0%float 0) "http://localhost")
           context.Background golibs.testProcess
           (fst (@ratelimit.getAndWait golibs.libraries golibs.testProcess
                   context.Background ratelimit.APIRentcast))
           (resty.Responded (examples.response 200)
              (Some (rentcast.decode
                       (rentcast.mkBody (Some 300000%float) None None None None))))
           eq_refl).
Defined.

Lemma Load_validates_witness :
  exists message,
    config.Load
      (config.mkConfig "e" "a" "r" "" "p" "" "" "" "" ["0x123"] ["AAPL"] []) None
    = (None, Some (errorString message))
    /\ config.contains message "missing required configuration" = true
    /\ config.contains message "GUIDELINE_EMAIL" = true.
Proof.
  apply (proj2 (Load_validates
                  (config.mkConfig "e" "a" "r" "" "p" "" "" "" "" ["0x123"] ["AAPL"] []))).
  cbn. tauto.
Defined.

Lemma channel_has_room_witness :
  exists s,
    @coordinator.exec golibs.libraries (coordinator.New examples.withErrors)
      context.Background (take 8 examples.schedule) coordinator.init = Some s
    /\ (exists r, coordinator.workers s !! 0%nat = Some (coordinator.WSend r))
    /\ Z.of_nat (length (coordinator.buf s)) <= coordinator.cap s
    /\ forall i r, coordinator.workers s !! i = Some (coordinator.WSend r) ->
         coordinator.closed s = false
         /\ Z.of_nat (length (coordinator.buf s)) < coordinator.cap s.
Proof.
  eexists. split; [vm_compute; reflexivity |].
  split; [eexists; reflexivity |].
  apply (@channel_has_room golibs.libraries (coordinator.New examples.withErrors)
           context.Background).
  eapply (@exec_reachable golibs.libraries _ _ (take 8 examples.schedule));
    [apply coordinator.reach_init | vm_compute; reflexivity].
Defined.

Lemma closed_after_workers_witness :
  exists s,
    @coordinator.exec golibs.libraries (coordinator.New examples.withErrors)
      context.Background examples.schedule coordinator.init = Some s
    /\ length (coordinator.workers s) = 3%nat
    /\ Forall (fun w => w = coordinator.WExited) (coordinator.workers s)
    /\ coordinator.wg s = 0.
Proof.
  eexists. split; [vm_compute; reflexivity |].
  apply (@closed_after_workers golibs.libraries (coordinator.New examples.withErrors)
           context.Background).
  - eapply (@exec_reachable golibs.libraries _ _ examples.schedule);
      [apply coordinator.reach_init | vm_compute; reflexivity].
  - reflexivity.
Defined.

Lemma Run_step_bound_witness : (length examples.schedule <= 5 * 3 + 5)%nat.
Proof.
  eapply (@Run_step_bound golibs.libraries (coordinator.New examples.withErrors)
            context.Background examples.schedule).
  vm_compute. reflexivity.
Defined.

Lemma Run_never_panics_witness :
  exists s,
    @coordinator.exec golibs.libraries (coordinator.New examples.withErrors)
      context.Background (take 16 examples.schedule) coordinator.init = Some s
    /\ coordinator.closer s = coordinator.CClose
    /\ coordinator.panicked s = false
    /\ (coordinator.closer s = coordinator.CClose -> coordinator.closed s = false)
    /\ (coordinator.closed s = true -> coordinator.closer s = coordinator.CExited)
    /\ 0 <= coordinator.wg s.
Proof.
  eexists. split; [vm_compute; reflexivity |]. split; [reflexivity |].
  apply (@Run_never_panics golibs.libraries (coordinator.New examples.withErrors)
           context.Background).
  eapply (@exec_reachable golibs.libraries _ _ (take 16 examples.schedule));
    [apply coordinator.reach_init | vm_compute; reflexivity].
Defined.

Lemma main_Run_outcomes_witness :
  let cfg := config.mkConfig "e" "a" "r" "g" "p" "" "" "" "" ["0xAbC"] ["AAPL"] [] in
  let fetch := fun (_ : units.FetchUnit) (_ : context.Context) => (1%float, @None error) in
  let c := coordinator.New
             (map (@main_.asFetcher golibs.libraries fetch)
                (@main_.buildFetchers golibs.libraries cfg)) in
  exists s,
    @coordinator.exec golibs.libraries c context.Background
      [coordinator.AMain; coordinator.AMain; coordinator.AMain; coordinator.AMain;
       coordinator.AWorker 1; coordinator.AWorker 1; coordinator.AWorker 1;
       coordinator.AWorker 0; coordinator.AWorker 0; coordinator.AWorker 0;
       coordinator.ACloser; coordinator.ACloser;
       coordinator.AMain; coordinator.AMain; coordinator.AMain]
      coordinator.init = Some s
    /\ coordinator.stdout s
       = ["fetcher:alphavantage:AAPL: $1.00" +:+ coordinator.newline;
          "fetcher:etherscan:0xAbC: $1.00" +:+ coordinator.newline]
    /\ length (coordinator.stdout s) = 2%nat.
Proof.
  cbv zeta. eexists. split; [vm_compute; reflexivity |]. split; [reflexivity |].
  eapply (@main_Run_outcomes golibs.libraries
            (config.mkConfig "e" "a" "r" "g" "p" "" "" "" "" ["0xAbC"] ["AAPL"] [])
            (fun _ _ => (1%float, None)) context.Background _ None).
  - eapply (@exec_reachable golibs.libraries _ _
              [coordinator.AMain; coordinator.AMain; coordinator.AMain; coordinator.AMain;
               coordinator.AWorker 1; coordinator.AWorker 1; coordinator.AWorker 1;
               coordinator.AWorker 0; coordinator.AWorker 0; coordinator.AWorker 0;
               coordinator.ACloser; coordinator.ACloser;
               coordinator.AMain; coordinator.AMain; coordinator.AMain]);
      [apply coordinator.reach_init | vm_compute; reflexivity].
  - split; [reflexivity |]. split; reflexivity.
Defined.

Lemma GetLimiter_first_use_witness :
  default (golibs.mkUnthrottled 0%float 0)
    (ratelimit.limiters
       (fst (@ratelimit.GetLimiter golibs.libraries golibs.testProcess))
     !! ratelimit.APIRentcast)
  = golibs.mkUnthrottled ratelimit.rate_Inf 1.
Proof.
  apply (proj1 (proj2 (@GetLimiter_first_use golibs.libraries
                         (ratelimit.mkEnviron "" ["fetcher.test"; "-test.v=true"])
                         ratelimit.APIRentcast))).
  - right. reflexivity.
  - reflexivity.
Defined.

Lemma Wait_Allow_frame_witness :
  let l := fst (@ratelimit.GetLimiter golibs.libraries golibs.testProcess) in
  ratelimit.limiters
    (fst (fst (@ratelimit.Wait golibs.libraries l context.Background
                 ratelimit.APIRentcast)))
  !! ratelimit.APIEtherscan
  = ratelimit.limiters l !! ratelimit.APIEtherscan.
Proof.
  cbv zeta.
  apply (proj2 (proj2 (@Wait_Allow_frame golibs.libraries
                         (fst (@ratelimit.GetLimiter golibs.libraries golibs.testProcess))
                         context.Background ratelimit.APIRentcast
                         ratelimit.APIEtherscan))).
  discriminate.
Defined.
